(** * Dusky Control Center: terminal resolver, configuration loader and
      command dispatcher

    A shallow embedding of [user_scripts/dusky_system/dusky_control_center.py].

    - Python [str] values are [string]s; a character is a code point below
      256, and [is_space] is Python's [str.isspace] on that range.
    - Values coming out of the YAML parser are [PyVal]s (null, booleans,
      integers, strings, sequences, mappings with string keys); floats,
      dates and mappings with other keys are left out.
    - The operating system and the libraries the program calls
      ([shutil.which], [os.path.expandvars], [os.path.isfile], [open],
      [yaml.safe_load], [subprocess.Popen], ...) are the fields of a record
      [OS]; the program is a function of it.
    - Exceptions are values of [Exn]; every exception the modelled library
      calls raise is an instance of Python's [Exception], which is what the
      program's [except Exception] clauses catch.
    - The click handler runs in a small monad that threads the trace of the
      calls it makes to the outside ([os.path.expandvars], [print],
      [subprocess.Popen]) and may raise.
    - [check_dependencies] runs in a monad of the same kind over its own
      events ([print], [subprocess.check_call], [os.execv]); besides
      raising it can end by [sys.exit] or by replacing the process. Its
      library calls are the fields of a record [Host].
    - The window is the tree of widgets [do_activate] builds; the toolkit
      calls that receive configured values are the fields of a record
      [Toolkit], each free to refuse its argument. *)

From Stdlib Require Import String Ascii List Bool Arith ZArith Lia.
Import ListNotations.
Open Scope string_scope.

(* ========================================================================= *)
(** ** Python strings *)
(* ========================================================================= *)

Module PyStr.

(** The double quote character, as a one-character string. *)
Definition dquote : string := String "034"%char EmptyString.

(** [str.isspace] of a single character (code points below 256):
    U+0009..U+000D, U+001C..U+001F, U+0020, U+0085, U+00A0. *)
Definition is_space (c : ascii) : bool :=
  let n := nat_of_ascii c in
  (((9 <=? n) && (n <=? 13)) || ((28 <=? n) && (n <=? 32))
   || (n =? 133) || (n =? 160))%nat.

Definition is_empty (s : string) : bool :=
  match s with EmptyString => true | String _ _ => false end.

(** [s.lstrip()] *)
Fixpoint lstrip (s : string) : string :=
  match s with
  | EmptyString => EmptyString
  | String c s' => if is_space c then lstrip s' else s
  end.

(** [s.rstrip()] *)
Fixpoint rstrip (s : string) : string :=
  match s with
  | EmptyString => EmptyString
  | String c s' =>
      let r := rstrip s' in
      if is_space c && is_empty r then EmptyString else String c r
  end.

(** [s.strip()] *)
Definition strip (s : string) : string := rstrip (lstrip s).

(** Every character of [s] is whitespace (true of the empty string). *)
Fixpoint all_space (s : string) : bool :=
  match s with
  | EmptyString => true
  | String c s' => is_space c && all_space s'
  end.

(** [sub in s] for two strings. *)
Fixpoint str_in (sub s : string) : bool :=
  if prefix sub s then true
  else match s with
       | EmptyString => false
       | String _ s' => str_in sub s'
       end.

End PyStr.
Import PyStr.

(* ========================================================================= *)
(** ** Python values, exceptions and results *)
(* ========================================================================= *)

(** What [yaml.safe_load] builds, and what the program's dictionaries hold. *)
#[local] Set Warnings "-register-all".
Inductive PyVal : Type :=
| PNone : PyVal
| PBool : bool -> PyVal
| PInt : Z -> PyVal
| PStr : string -> PyVal
| PList : list PyVal -> PyVal
| PDict : list (string * PyVal) -> PyVal.

(** [bool(v)] *)
Definition truthy (v : PyVal) : bool :=
  match v with
  | PNone => false
  | PBool b => b
  | PInt z => negb (z =? 0)%Z
  | PStr s => negb (is_empty s)
  | PList l => match l with [] => false | _ :: _ => true end
  | PDict d => match d with [] => false | _ :: _ => true end
  end.

(** A dictionary as the list of its entries. *)
Definition Dict : Type := list (string * PyVal).

(** [d.get(key, default)] *)
Fixpoint dict_get (d : Dict) (key : string) (default : PyVal) : PyVal :=
  match d with
  | [] => default
  | (k, v) :: d' => if String.eqb k key then v else dict_get d' key default
  end.

(** [key in d] *)
Fixpoint dict_has (d : Dict) (key : string) : bool :=
  match d with
  | [] => false
  | (k, _) :: d' => String.eqb k key || dict_has d' key
  end.

(** [type(v).__name__] *)
Definition type_name (v : PyVal) : string :=
  match v with
  | PNone => "NoneType"
  | PBool _ => "bool"
  | PInt _ => "int"
  | PStr _ => "str"
  | PList _ => "list"
  | PDict _ => "dict"
  end.

(** An exception: its class name and [str(e)]. *)
Record Exn : Type := mkExn { exn_class : string; exn_str : string }.

(** The outcome of a call: a value, or a raised exception. *)
Inductive Res (A : Type) : Type :=
| Ret : A -> Res A
| Raise : Exn -> Res A.
Arguments Ret {A} _.
Arguments Raise {A} _.

(* ========================================================================= *)
(** ** Branding and configuration *)
(* ========================================================================= *)

Definition APP_ID : string := "com.github.dusky.controlcenter".
Definition APP_TITLE : string := "Dusky Control Center".
Definition CONFIG_FILENAME : string := "dusky_config.yaml".

(** Supported terminals in order of preference. *)
Definition TERMINALS : list string :=
  ["kitty"; "foot"; "alacritty"; "wezterm"; "gnome-terminal"; "konsole";
   "xfce4-terminal"].

(* ========================================================================= *)
(** ** The outside world *)
(* ========================================================================= *)

(** [subprocess.DEVNULL], or the stream inherited from the parent (the
    default of [Popen]). *)
Inductive Stream : Type := DEVNULL | Inherit.

(** The first argument of [Popen]: an argument list or one string. *)
Inductive PopenArgs : Type :=
| ArgList : list string -> PopenArgs
| ArgStr : string -> PopenArgs.

(** One call of [subprocess.Popen] with the keyword arguments the program
    uses; [shell] and [start_new_session] default to [False]. *)
Record PopenCall : Type := mkPopen {
  args : PopenArgs;
  shell : bool;
  start_new_session : bool;
  stdin : Stream;
  stdout : Stream;
  stderr : Stream
}.

(** The library and system calls of the program. *)
Record OS : Type := mkOS {
  (** [shutil.which(name)]: the path of the executable, or [None] *)
  which : string -> option string;
  (** [os.path.expandvars(s)] under the process environment *)
  expandvars : string -> string;
  (** [os.path.dirname(os.path.realpath(__file__))] *)
  script_dir : string;
  (** [os.path.join(a, b)] *)
  path_join : string -> string -> string;
  (** [os.path.isfile(path)] *)
  isfile : string -> bool;
  (** [open(path, "r", encoding="utf-8")]: the file, or the exception *)
  open_r : string -> Res string;
  (** [yaml.safe_load(f)]: the document, or the exception *)
  safe_load : string -> Res PyVal;
  (** [subprocess.Popen(...)]: [None] when the child was started, the
      exception otherwise *)
  popen : PopenCall -> option Exn
}.

(* ========================================================================= *)
(** ** Terminal utilities *)
(* ========================================================================= *)

(** Truth value of what [shutil.which] returns. *)
Definition resolves (os : OS) (term : string) : bool :=
  match which os term with
  | None => false
  | Some p => negb (is_empty p)
  end.

(** The [for term in TERMINALS] loop of [find_terminal], over the names
    still to try. *)
Fixpoint find_terminal_loop (os : OS) (terms : list string) : option string :=
  match terms with
  | [] => None
  | term :: rest =>
      if resolves os term then Some term else find_terminal_loop os rest
  end.

(** Return the first available terminal emulator, or None. *)
Definition find_terminal (os : OS) : option string :=
  find_terminal_loop os TERMINALS.

(** What [wait=True] appends to the shell command. *)
Definition WAIT_SUFFIX : string :=
  "; echo " ++ dquote ++ dquote ++ "; echo " ++ dquote
  ++ "Press Enter to close..." ++ dquote ++ "; read".

(** Construct a command list to run [shell_cmd] inside [terminal]. *)
Definition build_terminal_cmd (terminal title shell_cmd : string)
    (wait : bool) : list string :=
  let full_cmd := if wait then shell_cmd ++ WAIT_SUFFIX else shell_cmd in
  if String.eqb terminal "kitty" then
    [terminal; "--title"; title; "sh"; "-c"; full_cmd]
  else if String.eqb terminal "foot" then
    [terminal; "--title"; title; "sh"; "-c"; full_cmd]
  else if String.eqb terminal "alacritty" then
    [terminal; "--title"; title; "-e"; "sh"; "-c"; full_cmd]
  else if String.eqb terminal "wezterm" then
    [terminal; "start"; "--"; "sh"; "-c"; full_cmd]
  else if String.eqb terminal "gnome-terminal" then
    [terminal; "--title=" ++ title; "--wait"; "--"; "sh"; "-c"; full_cmd]
  else if String.eqb terminal "konsole" then
    [terminal; "--title"; title; "-e"; "sh"; "-c"; full_cmd]
  else
    (* Generic fallback *)
    [terminal; "-e"; "sh"; "-c"; full_cmd].

(* ========================================================================= *)
(** ** Effects: results, traces and the two monads *)
(* ========================================================================= *)

Class Monad (m : Type -> Type) : Type := {
  mret : forall {A}, A -> m A;
  mbind : forall {A B}, m A -> (A -> m B) -> m B
}.

Notation "x <- c ;; k" := (mbind c (fun x => k))
  (at level 61, c at next level, right associativity).
Notation "c ;;; k" := (mbind c (fun _ => k))
  (at level 61, right associativity).

(** Code that only returns or raises. *)
#[export] Instance Res_Monad : Monad Res := {
  mret := fun A a => Ret a;
  mbind := fun A B c k =>
    match c with
    | Ret a => k a
    | Raise e => Raise e
    end
}.

(** [try: body / except Exception as e: handler(e)] *)
Definition try_except_res {A} (body : Res A) (handler : Exn -> Res A) : Res A :=
  match body with
  | Ret a => Ret a
  | Raise e => handler e
  end.

(** What the click handler prints. *)
Inductive LogMsg : Type :=
| LogExec (expanded_cmd : string) (use_terminal use_uwsm : PyVal)
    (* "[Dusky Control Center] Exec: .. | Terminal: .. | Wrap UWSM: .." *)
| LogError (e : Exn)                       (* "Error: {e}" *)
| LogNoTerminal.         (* "No terminal found, running in background." *)

(** The calls the click handler makes to the outside, in order. *)
Inductive Event : Type :=
| EvExpandvars (s : string)
| EvPrint (m : LogMsg)
| EvPopen (c : PopenCall).

(** Code that also calls the outside: the trace so far goes in, the outcome
    and the extended trace come out. *)
Definition M (A : Type) : Type := list Event -> Res A * list Event.

#[export] Instance M_Monad : Monad M := {
  mret := fun A a tr => (Ret a, tr);
  mbind := fun A B c k tr =>
    match c tr with
    | (Ret a, tr') => k a tr'
    | (Raise e, tr') => (Raise e, tr')
    end
}.

Definition emit (ev : Event) : M unit := fun tr => (Ret tt, (tr ++ [ev])%list).

Definition raise {A} (e : Exn) : M A := fun tr => (Raise e, tr).

Definition try_except {A} (body : M A) (handler : Exn -> M A) : M A :=
  fun tr =>
    match body tr with
    | (Ret a, tr') => (Ret a, tr')
    | (Raise e, tr') => handler e tr'
    end.

(** Run a handler from the empty trace. *)
Definition run {A} (c : M A) : Res A * list Event := c [].

(** [print(...)] *)
Definition print (m : LogMsg) : M unit := emit (EvPrint m).

(** [os.path.expandvars(v)]: a [str] is expanded under the environment,
    anything else is refused by [os.fspath]. *)
Definition os_path_expandvars (os : OS) (v : PyVal) : M string :=
  match v with
  | PStr s => emit (EvExpandvars s) ;;; mret (expandvars os s)
  | _ => raise (mkExn "TypeError"
                  ("expected str, bytes or os.PathLike object, not "
                   ++ type_name v))
  end.

(** [subprocess.Popen(...)]; the returned process object is dropped. *)
Definition subprocess_Popen (os : OS) (c : PopenCall) : M unit :=
  emit (EvPopen c) ;;;
  match popen os c with
  | None => mret tt
  | Some e => raise e
  end.

(** [v.strip()]: only a [str] has the method. *)
Definition py_strip (v : PyVal) : M string :=
  match v with
  | PStr s => mret (strip s)
  | _ => raise (mkExn "AttributeError"
                  ("'" ++ type_name v ++ "' object has no attribute 'strip'"))
  end.

(* ========================================================================= *)
(** ** Configuration loader *)
(* ========================================================================= *)

Definition get_script_dir (os : OS) : string := script_dir os.

Definition _error_config (message : string) : PyVal :=
  PDict [("pages", PList [PDict
    [("name", PStr "Error");
     ("groups", PList [PDict
        [("title", PStr "Error");
         ("items", PList [PDict
            [("title", PStr "Config Error");
             ("description", PStr message)]])]])]])].

Definition load_config (os : OS) : Res PyVal :=
  let config_path := path_join os (get_script_dir os) CONFIG_FILENAME in
  if negb (isfile os config_path) then
    Ret (_error_config ("Config file missing: " ++ CONFIG_FILENAME))
  else
    try_except_res
      (f <- open_r os config_path ;;
       data <- safe_load os f ;;
       Ret (if truthy data then data else PDict [("pages", PList [])]))
      (fun e => Ret (_error_config (exn_str e))).

(* ========================================================================= *)
(** ** Main application: startup and command dispatcher *)
(* ========================================================================= *)

(** The fields of [DuskyControlCenter] the program sets itself. *)
Record App : Type := mkApp {
  config : PyVal;
  _terminal : option string
}.

(** [__init__] *)
Definition App_init : App := {| config := PDict []; _terminal := None |}.

(** [do_startup] *)
Definition do_startup (os : OS) (self : App) : Res App :=
  cfg <- load_config os ;;
  Ret {| config := cfg; _terminal := find_terminal os |}.

Definition _spawn_process (os : OS) (cmd : string) (wrap_uwsm : PyVal)
  : M unit :=
  let args :=
    if truthy wrap_uwsm then ArgList ["uwsm-app"; "--"; "sh"; "-c"; cmd]
    else ArgStr cmd in
  (* shell=True is needed if we are NOT wrapping in UWSM array *)
  let use_shell := negb (truthy wrap_uwsm) in
  subprocess_Popen os
    {| args := args;
       shell := use_shell;
       start_new_session := true;
       stdin := DEVNULL;
       stdout := DEVNULL;
       stderr := DEVNULL |}.

(** [not self._terminal] holds of [None] and of the empty string. *)
Definition _spawn_terminal (os : OS) (self : App) (cmd : string) : M unit :=
  match _terminal self with
  | Some terminal =>
      if is_empty terminal then
        print LogNoTerminal ;;;
        _spawn_process os cmd (PBool true)
      else
        (* Build terminal args *)
        let term_args := build_terminal_cmd terminal APP_TITLE cmd true in
        (* Terminals are GUI apps, so we ALWAYS wrap them in uwsm-app *)
        let final_args := (["uwsm-app"; "--"] ++ term_args)%list in
        subprocess_Popen os
          {| args := ArgList final_args;
             shell := false;
             start_new_session := true;
             stdin := DEVNULL;
             stdout := DEVNULL;
             stderr := DEVNULL |}
  | None =>
      print LogNoTerminal ;;;
      _spawn_process os cmd (PBool true)
  end.

(** The handler of a row's [Run] button; [item_data] is the row's item
    mapping. The button argument is not used and is left out. *)
Definition _on_run_clicked (os : OS) (self : App) (item_data : Dict)
  : M unit :=
  let command := dict_get item_data "command" (PStr "") in
  stripped <- py_strip command ;;
  if is_empty stripped then mret tt
  else
    expanded_cmd <- os_path_expandvars os command ;;
    (* Determine Execution Mode *)
    let use_terminal := dict_get item_data "terminal" (PBool false) in
    let config_uwsm := dict_get item_data "use_uwsm" (PBool true) in
    (* Avoid double wrapping if the user's config already has it *)
    let use_uwsm :=
      if str_in "uwsm-app" expanded_cmd then PBool false else config_uwsm in
    print (LogExec expanded_cmd use_terminal use_uwsm) ;;;
    try_except
      (if truthy use_terminal then _spawn_terminal os self expanded_cmd
       else _spawn_process os expanded_cmd use_uwsm)
      (fun e => print (LogError e)).

(* ========================================================================= *)
(** ** Dependency bootstrap *)
(* ========================================================================= *)

(** The library and system calls of [check_dependencies]. *)
Record Host : Type := mkHost {
  (** [importlib.util.find_spec(name) is not None], or the exception *)
  find_spec : string -> Res bool;
  (** the body of the [try] of step 2 ([import gi], the two
      [gi.require_version], the import of [Gtk] and [Adw]): [None] when it
      runs through, the exception otherwise *)
  load_toolkit : option Exn;
  (** [isinstance(e, cls)], the class given by name *)
  isinstance : Exn -> string -> bool;
  (** [subprocess.check_call(cmd)]: [None] when the command exited with
      status 0, the exception otherwise *)
  check_call : list string -> option Exn;
  (** [os.execv(path, argv)]: [None] when the process image was replaced,
      the exception otherwise *)
  execv : string -> list string -> option Exn;
  sys_executable : string;
  sys_argv : list string
}.

(** What [check_dependencies] does to the outside, in order. *)
Inductive BootEvent : Type :=
| BPrint (line : string)
| BCheckCall (cmd : list string)
| BExecv (path : string) (argv : list string).

(** How a run can end other than by returning: an exception, [sys.exit],
    or the replacement of the process image. *)
Inductive Stop : Type :=
| Raised (e : Exn)
| Exited (status : Z)
| Replaced (path : string) (argv : list string).

Inductive BRes (A : Type) : Type :=
| BRet : A -> BRes A
| BStop : Stop -> BRes A.
Arguments BRet {A} _.
Arguments BStop {A} _.

Definition B (A : Type) : Type := list BootEvent -> BRes A * list BootEvent.

#[export] Instance B_Monad : Monad B := {
  mret := fun A a tr => (BRet a, tr);
  mbind := fun A B c k tr =>
    match c tr with
    | (BRet a, tr') => k a tr'
    | (BStop s, tr') => (BStop s, tr')
    end
}.

Definition bemit (ev : BootEvent) : B unit :=
  fun tr => (BRet tt, (tr ++ [ev])%list).

Definition bstop {A} (s : Stop) : B A := fun tr => (BStop s, tr).

(** A call that returns or raises. *)
Definition of_res {A} (r : Res A) : B A :=
  match r with
  | Ret a => mret a
  | Raise e => bstop (Raised e)
  end.

(** A call that returns nothing or raises. *)
Definition of_outcome (r : option Exn) : B unit :=
  match r with
  | None => mret tt
  | Some e => bstop (Raised e)
  end.

(** [try: body / except (classes): handler]; [sys.exit] and a replaced
    process pass through. *)
Definition try_except_classes {A} (host : Host) (body : B A)
    (classes : list string) (handler : B A) : B A :=
  fun tr =>
    match body tr with
    | (BStop (Raised e), tr') =>
        if existsb (isinstance host e) classes then handler tr'
        else (BStop (Raised e), tr')
    | r => r
    end.

Definition run_boot {A} (c : B A) : BRes A * list BootEvent := c [].

Definition bprint (line : string) : B unit := bemit (BPrint line).

(** [sys.exit(status)] *)
Definition sys_exit {A} (status : Z) : B A := bstop (Exited status).

(** [subprocess.check_call(cmd)] *)
Definition subprocess_check_call (host : Host) (cmd : list string) : B unit :=
  bemit (BCheckCall cmd) ;;; of_outcome (check_call host cmd).

(** [os.execv(path, argv)]: does not return when it succeeds. *)
Definition os_execv {A} (host : Host) (path : string) (argv : list string)
  : B A :=
  bemit (BExecv path argv) ;;;
  match execv host path argv with
  | None => bstop (Replaced path argv)
  | Some e => bstop (Raised e)
  end.

Definition python_deps : list (string * string) :=
  [("gi", "python-gobject"); ("yaml", "python-yaml")].

(** [if package not in missing: missing.append(package)] *)
Definition append_missing (missing : list string) (package : string)
  : list string :=
  if existsb (String.eqb package) missing then missing
  else (missing ++ [package])%list.

(** 1. Check Python Modules: the loop over [python_deps.items()]. *)
Fixpoint check_python_modules (host : Host) (deps : list (string * string))
    (missing : list string) : B (list string) :=
  match deps with
  | [] => mret missing
  | (module, package) :: rest =>
      found <- of_res (find_spec host module) ;;
      check_python_modules host rest
        (if found then missing else append_missing missing package)
  end.

(** 2. Check System Libraries (only if Python bindings exist). *)
Definition check_system_libraries (host : Host) (missing : list string)
  : B (list string) :=
  if existsb (String.eqb "python-gobject") missing then mret missing
  else
    try_except_classes host
      (of_outcome (load_toolkit host) ;;; mret missing)
      ["ValueError"; "ImportError"]
      (mret (append_missing (append_missing missing "gtk4") "libadwaita")).

(** The install command for the packages of [missing]. *)
Definition pacman_cmd (missing : list string) : string :=
  "sudo pacman -S --needed " ++ String.concat " " missing.

(** 3. Perform Installation. *)
Definition perform_installation (os : OS) (host : Host)
    (missing : list string) : B unit :=
  bprint ("[" ++ APP_TITLE ++ "] Missing dependencies: "
          ++ String.concat ", " missing) ;;;
  match find_terminal os with
  | None =>
      bprint "[ERROR] No terminal found. Install manually:" ;;;
      bprint (pacman_cmd missing) ;;;
      sys_exit 1
  | Some terminal =>
      bprint ("[" ++ APP_TITLE ++ "] Launching " ++ terminal
              ++ " for installation...") ;;;
      let cmd :=
        build_terminal_cmd terminal (APP_TITLE ++ " Installer")
          (pacman_cmd missing) true in
      try_except_classes host
        (subprocess_check_call host cmd ;;;
         bprint ("[" ++ APP_TITLE ++ "] Restarting...") ;;;
         os_execv host (sys_executable host)
           (sys_executable host :: sys_argv host))
        ["CalledProcessError"; "FileNotFoundError"]
        (bprint "[ERROR] Installation failed." ;;; sys_exit 1)
  end.

(** Checks for Python-GObject, PyYAML, GTK4, and Libadwaita. If missing,
    spawns a visible terminal to install them via pacman. *)
Definition check_dependencies (os : OS) (host : Host) : B unit :=
  missing <- check_python_modules host python_deps [] ;;
  missing <- check_system_libraries host missing ;;
  match missing with
  | [] => mret tt
  | _ :: _ => perform_installation os host missing
  end.

(* ========================================================================= *)
(** ** Main application: the window and its rows *)
(* ========================================================================= *)

(** [v.get(key, default)]: only a mapping has the method. *)
Definition py_get (v : PyVal) (key : string) (default : PyVal) : Res PyVal :=
  match v with
  | PDict d => Ret (dict_get d key default)
  | _ => Raise (mkExn "AttributeError"
                  ("'" ++ type_name v ++ "' object has no attribute 'get'"))
  end.

(** The one-character strings of [s], in order. *)
Fixpoint chars (s : string) : list PyVal :=
  match s with
  | EmptyString => []
  | String c s' => PStr (String c EmptyString) :: chars s'
  end.

(** What [for x in v] goes through: the elements of a list, the keys of a
    mapping, the characters of a string; nothing else is iterable. *)
Definition py_iter (v : PyVal) : Res (list PyVal) :=
  match v with
  | PList l => Ret l
  | PDict d => Ret (map (fun kv => PStr (fst kv)) d)
  | PStr s => Ret (chars s)
  | _ => Raise (mkExn "TypeError"
                  ("'" ++ type_name v ++ "' object is not iterable"))
  end.

(** The toolkit calls that receive a value read from the configuration. *)
Inductive GtkCall : Type :=
| WindowSetTitle (title : PyVal)
| WindowSetDefaultSize (width height : PyVal)
| PageSetTitle (title : PyVal)
| PageSetIconName (icon : PyVal)
| GroupSetTitle (title : string)
| RowSetTitle (title : string)
| RowSetSubtitle (subtitle : string)
| ImageNewFromIconName (icon : PyVal).

(** The GUI toolkit, as far as the configuration reaches it. *)
Record Toolkit : Type := mkToolkit {
  (** [GLib.markup_escape_text(v)]: the escaped text, or the exception *)
  markup_escape_text : PyVal -> Res string;
  (** a setter or constructor call: [None] when the toolkit takes the
      value, the exception otherwise *)
  gtk : GtkCall -> option Exn
}.

Definition gtk_call (tk : Toolkit) (c : GtkCall) : Res unit :=
  match gtk tk c with
  | None => Ret tt
  | Some e => Raise e
  end.

Inductive Align : Type := ALIGN_FILL | ALIGN_CENTER.

(** The [Run] button of a row and what [connect] bound to its click. *)
Record Button : Type := mkButton {
  btn_label : string;
  btn_css_classes : list string;
  btn_valign : Align;
  btn_clicked_data : PyVal
}.

Record ActionRow : Type := mkActionRow {
  row_title : string;
  row_subtitle : string;
  row_prefix_icon : PyVal;
  row_suffix : Button;
  row_activatable_widget : Button
}.

Record PreferencesGroup : Type := mkGroup {
  group_title : string;
  group_rows : list ActionRow
}.

Record PreferencesPage : Type := mkPage {
  page_title : PyVal;
  page_icon_name : PyVal;
  page_groups : list PreferencesGroup
}.

Record PreferencesWindow : Type := mkWindow {
  win_title : PyVal;
  win_default_size : PyVal * PyVal;
  win_pages : list PreferencesPage;
  win_presented : bool
}.

(** [for x in xs: parent.add(build(x))]: the children in order; the first
    failure ends the loop. *)
Fixpoint add_each {A} (build : PyVal -> Res A) (xs : list PyVal)
  : Res (list A) :=
  match xs with
  | [] => Ret []
  | x :: rest =>
      child <- build x ;;
      children <- add_each build rest ;;
      Ret (child :: children)
  end.

Definition _build_row (tk : Toolkit) (data : PyVal) : Res ActionRow :=
  title <- py_get data "title" (PStr "Unknown") ;;
  title <- markup_escape_text tk title ;;
  gtk_call tk (RowSetTitle title) ;;;
  description <- py_get data "description" (PStr "") ;;
  subtitle <- markup_escape_text tk description ;;
  gtk_call tk (RowSetSubtitle subtitle) ;;;
  icon <- py_get data "icon" (PStr "text-x-generic-symbolic") ;;
  gtk_call tk (ImageNewFromIconName icon) ;;;
  (* Pass the whole data object to the handler *)
  let btn := {| btn_label := "Run";
                btn_css_classes := ["pill"];
                btn_valign := ALIGN_CENTER;
                btn_clicked_data := data |} in
  Ret {| row_title := title;
         row_subtitle := subtitle;
         row_prefix_icon := icon;
         row_suffix := btn;
         row_activatable_widget := btn |}.

Definition _build_group (tk : Toolkit) (data : PyVal)
  : Res PreferencesGroup :=
  title <- py_get data "title" (PStr "") ;;
  (* Escaping text prevents crashes on symbols like '&' *)
  title <- markup_escape_text tk title ;;
  gtk_call tk (GroupSetTitle title) ;;;
  items <- py_get data "items" (PList []) ;;
  items <- py_iter items ;;
  rows <- add_each (_build_row tk) items ;;
  Ret {| group_title := title; group_rows := rows |}.

Definition _build_page (tk : Toolkit) (data : PyVal) : Res PreferencesPage :=
  name <- py_get data "name" (PStr "Untitled") ;;
  gtk_call tk (PageSetTitle name) ;;;
  icon <- py_get data "icon" (PStr "system-help-symbolic") ;;
  gtk_call tk (PageSetIconName icon) ;;;
  groups <- py_get data "groups" (PList []) ;;
  groups <- py_iter groups ;;
  groups <- add_each (_build_group tk) groups ;;
  Ret {| page_title := name; page_icon_name := icon; page_groups := groups |}.

Definition do_activate (tk : Toolkit) (self : App) : Res PreferencesWindow :=
  (* Window Configuration *)
  win_cfg <- py_get (config self) "window" (PDict []) ;;
  title <- py_get win_cfg "title" (PStr APP_TITLE) ;;
  gtk_call tk (WindowSetTitle title) ;;;
  width <- py_get win_cfg "width" (PInt 950) ;;
  height <- py_get win_cfg "height" (PInt 650) ;;
  gtk_call tk (WindowSetDefaultSize width height) ;;;
  (* Build Pages *)
  pages <- py_get (config self) "pages" (PList []) ;;
  pages <- py_iter pages ;;
  pages <- add_each (_build_page tk) pages ;;
  Ret {| win_title := title;
         win_default_size := (width, height);
         win_pages := pages;
         win_presented := true |}.

(** A click on a button: the toolkit calls [_on_run_clicked] with the data
    bound by [connect]. *)
Definition clicked (os : OS) (self : App) (btn : Button) : M unit :=
  match btn_clicked_data btn with
  | PDict item_data => _on_run_clicked os self item_data
  | v => raise (mkExn "AttributeError"
                  ("'" ++ type_name v ++ "' object has no attribute 'get'"))
  end.

(* ========================================================================= *)
(** ** Sample environments *)
(* ========================================================================= *)

Module Sample.

(** A machine on which exactly the programs of [installed] are on the
    search path (under /usr/bin), no environment variable is set (so
    [expandvars] changes nothing), the configuration file is what [cfg]
    says, and [Popen] fails exactly when [spawn_fails] says so. *)
Definition os_of (installed : list string) (cfg : option (Res PyVal))
    (spawn_fails : PopenCall -> option Exn) : OS :=
  {| which := fun name =>
       if existsb (String.eqb name) installed
       then Some ("/usr/bin/" ++ name) else None;
     expandvars := fun s => s;
     script_dir := "/opt/dusky";
     path_join := fun a b => a ++ "/" ++ b;
     isfile := fun p =>
       match cfg with
       | Some _ => String.eqb p "/opt/dusky/dusky_config.yaml"
       | None => false
       end;
     open_r := fun p =>
       if String.eqb p "/opt/dusky/dusky_config.yaml" then Ret p
       else Raise (mkExn "FileNotFoundError" p);
     safe_load := fun f =>
       match cfg with
       | Some r => r
       | None => Ret PNone
       end;
     popen := spawn_fails |}.

Definition never_fails : PopenCall -> option Exn := fun _ => None.

Definition always_fails : PopenCall -> option Exn :=
  fun _ => Some (mkExn "FileNotFoundError" "No such file or directory").

(** foot and konsole are installed, the configuration file is missing. *)
Definition os_foot : OS := os_of ["konsole"; "foot"] None never_fails.

(** No terminal emulator is installed; the configuration is empty. *)
Definition os_bare : OS := os_of [] (Some (Ret PNone)) never_fails.

(** As [os_foot], but no process can be started. *)
Definition os_broken : OS := os_of ["konsole"; "foot"] None always_fails.

Definition app_of (os : OS) : App :=
  {| config := PDict []; _terminal := find_terminal os |}.

Definition item_echo : Dict := [("title", PStr "Echo"); ("command", PStr "echo hi")].

Definition item_term : Dict :=
  [("command", PStr "htop"); ("terminal", PBool true);
   ("use_uwsm", PBool false)].

End Sample.

Module SampleBoot.

(** The class of an exception and its bases, for the classes the program
    names. *)
Definition bases (e : Exn) : list string :=
  if String.eqb (exn_class e) "ModuleNotFoundError"
  then ["ModuleNotFoundError"; "ImportError"; "Exception"]
  else if String.eqb (exn_class e) "FileNotFoundError"
  then ["FileNotFoundError"; "OSError"; "Exception"]
  else if String.eqb (exn_class e) "PermissionError"
  then ["PermissionError"; "OSError"; "Exception"]
  else [exn_class e; "Exception"].

(** A machine on which exactly the Python modules of [modules] are found,
    loading the toolkit ends as [toolkit] says, and the installer and the
    restart end as [install] and [restart] say. *)
Definition host_of (modules : list string) (toolkit : option Exn)
    (install restart : option Exn) : Host :=
  {| find_spec := fun name => Ret (existsb (String.eqb name) modules);
     load_toolkit := toolkit;
     isinstance := fun e cls => existsb (String.eqb cls) (bases e);
     check_call := fun _ => install;
     execv := fun _ _ => restart;
     sys_executable := "/usr/bin/python3";
     sys_argv := ["dusky_control_center.py"] |}.

(** Everything is installed. *)
Definition host_ready : Host := host_of ["gi"; "yaml"] None None None.

(** PyYAML is missing and GTK 4 cannot be loaded; the installer works. *)
Definition host_fresh : Host :=
  host_of ["gi"] (Some (mkExn "ValueError" "Namespace Gtk not available"))
    None None.

(** The Python bindings are missing and the user closes the installer with
    a failure. *)
Definition host_declined : Host :=
  host_of ["yaml"] None
    (Some (mkExn "CalledProcessError" "returned non-zero exit status 1"))
    None.

(** PyYAML is missing and the terminal cannot be executed. *)
Definition host_denied : Host :=
  host_of ["gi"] None (Some (mkExn "PermissionError" "Permission denied"))
    None.

(** Escaping of the five markup characters. *)
Fixpoint escape (s : string) : string :=
  match s with
  | EmptyString => EmptyString
  | String c s' =>
      (if Ascii.eqb c "&" then "&amp;"
       else if Ascii.eqb c "<" then "&lt;"
       else if Ascii.eqb c ">" then "&gt;"
       else if Ascii.eqb c "'" then "&apos;"
       else if Ascii.eqb c "034" then "&quot;"
       else String c EmptyString) ++ escape s'
  end.

Definition type_error (v : PyVal) : Exn :=
  mkExn "TypeError" ("Must be string, not " ++ type_name v).

Definition wants_str (v : PyVal) : option Exn :=
  match v with
  | PStr _ => None
  | _ => Some (type_error v)
  end.

Definition wants_int (v : PyVal) : option Exn :=
  match v with
  | PInt _ => None
  | _ => Some (type_error v)
  end.

(** A toolkit that takes strings where it shows text and integers where it
    measures, and refuses everything else. *)
Definition toolkit : Toolkit :=
  {| markup_escape_text := fun v =>
       match v with
       | PStr s => Ret (escape s)
       | _ => Raise (type_error v)
       end;
     gtk := fun c =>
       match c with
       | WindowSetTitle v | PageSetTitle v | PageSetIconName v
       | ImageNewFromIconName v => wants_str v
       | WindowSetDefaultSize w h =>
           match wants_int w with
           | None => wants_int h
           | Some e => Some e
           end
       | GroupSetTitle _ | RowSetTitle _ | RowSetSubtitle _ => None
       end |}.

(** As [Sample.os_foot], with the environment variable DUSKY_EDITOR set to
    the empty string. *)
Definition os_empty_var : OS :=
  {| which := which Sample.os_foot;
     expandvars := fun s => if String.eqb s "$DUSKY_EDITOR" then "" else s;
     script_dir := script_dir Sample.os_foot;
     path_join := path_join Sample.os_foot;
     isfile := isfile Sample.os_foot;
     open_r := open_r Sample.os_foot;
     safe_load := safe_load Sample.os_foot;
     popen := popen Sample.os_foot |}.

(** A toolkit that escapes strings and takes every call. *)
Definition toolkit' : Toolkit :=
  {| markup_escape_text := markup_escape_text toolkit;
     gtk := fun _ => None |}.

(** A group with two items, one of them for a terminal. *)
Definition group_tools : PyVal :=
  PDict [("title", PStr "Tools & Settings");
         ("items", PList [PDict Sample.item_echo; PDict Sample.item_term])].

End SampleBoot.

(* ========================================================================= *)
(** ** Vocabulary of the properties *)
(* ========================================================================= *)

(** The [Popen] calls of a trace, in order. *)
Fixpoint popen_calls (tr : list Event) : list PopenCall :=
  match tr with
  | [] => []
  | EvPopen c :: tr' => c :: popen_calls tr'
  | _ :: tr' => popen_calls tr'
  end.

(** The strings [os.path.expandvars] was called on, in order. *)
Fixpoint expandvars_calls (tr : list Event) : list string :=
  match tr with
  | [] => []
  | EvExpandvars s :: tr' => s :: expandvars_calls tr'
  | _ :: tr' => expandvars_calls tr'
  end.

(** The last [n] elements of a list ([l[-n:]]). *)
Definition lastn {A} (n : nat) (l : list A) : list A :=
  skipn (length l - n) l.

(** What follows a [Popen] call in the handler's trace: nothing when the
    child started, the logged error when [Popen] raised. *)
Definition spawn_outcome (os : OS) (c : PopenCall) : list Event :=
  match popen os c with
  | None => []
  | Some e => [EvPrint (LogError e)]
  end.

(** A detached spawn of [a]: new session, the three standard streams
    discarded. *)
Definition detached (a : PopenArgs) (use_shell : bool) : PopenCall :=
  {| args := a;
     shell := use_shell;
     start_new_session := true;
     stdin := DEVNULL;
     stdout := DEVNULL;
     stderr := DEVNULL |}.

(** The synthetic configuration in words: one page named Error, holding one
    group, holding one item, whose description is [msg]. *)
Definition is_error_config (cfg : PyVal) (msg : string) : Prop :=
  exists root page group item,
    cfg = PDict root /\
    dict_get root "pages" PNone = PList [PDict page] /\
    dict_get page "name" PNone = PStr "Error" /\
    dict_get page "groups" PNone = PList [PDict group] /\
    dict_get group "items" PNone = PList [PDict item] /\
    dict_get item "description" PNone = PStr msg.

(** [t] is at position [i] of [terms], it resolves, and nothing before it
    does. *)
Definition first_resolvable (os : OS) (terms : list string) (i : nat)
    (t : string) : Prop :=
  nth_error terms i = Some t /\
  resolves os t = true /\
  forall j t', j < i -> nth_error terms j = Some t' -> resolves os t' = false.

(** Where [load_config] looks for the configuration. *)
Definition config_path (os : OS) : string :=
  path_join os (get_script_dir os) CONFIG_FILENAME.

(** The handler of the [try] block of [_on_run_clicked]. *)
Definition log_error : Exn -> M unit := fun e => print (LogError e).

(** The three shapes of a spawn. *)
Definition wrapped_call (cmd : string) : PopenCall :=
  detached (ArgList ["uwsm-app"; "--"; "sh"; "-c"; cmd]) false.

Definition raw_call (cmd : string) : PopenCall :=
  detached (ArgStr cmd) true.

Definition terminal_call (t cmd : string) : PopenCall :=
  detached
    (ArgList (["uwsm-app"; "--"] ++ build_terminal_cmd t APP_TITLE cmd true))
    false.

(** What the [try] block logs before it spawns, and the spawn it makes. *)
Definition dispatched (self : App) (use_terminal use_uwsm : PyVal)
    (cmd : string) : list Event * PopenCall :=
  if truthy use_terminal then
    match _terminal self with
    | Some t =>
        if is_empty t then ([EvPrint LogNoTerminal], wrapped_call cmd)
        else ([], terminal_call t cmd)
    | None => ([EvPrint LogNoTerminal], wrapped_call cmd)
    end
  else ([], if truthy use_uwsm then wrapped_call cmd else raw_call cmd).

(** The commands [check_call] ran, in order. *)
Fixpoint check_calls (tr : list BootEvent) : list (list string) :=
  match tr with
  | [] => []
  | BCheckCall cmd :: tr' => cmd :: check_calls tr'
  | _ :: tr' => check_calls tr'
  end.

(** The [execv] calls of a trace, in order. *)
Fixpoint execv_calls (tr : list BootEvent) : list (string * list string) :=
  match tr with
  | [] => []
  | BExecv path argv :: tr' => (path, argv) :: execv_calls tr'
  | _ :: tr' => execv_calls tr'
  end.

(** The lists of packages [check_dependencies] can find missing. *)
Definition missing_shapes : list (list string) :=
  [["python-yaml"];
   ["python-gobject"];
   ["python-gobject"; "python-yaml"];
   ["gtk4"; "libadwaita"];
   ["python-yaml"; "gtk4"; "libadwaita"]].

(** The first line [check_dependencies] prints when packages are missing. *)
Definition missing_line (missing : list string) : BootEvent :=
  BPrint ("[Dusky Control Center] Missing dependencies: "
          ++ String.concat ", " missing).

(** The command [check_dependencies] hands to [check_call]. *)
Definition installer_cmd (terminal : string) (missing : list string)
  : list string :=
  build_terminal_cmd terminal "Dusky Control Center Installer"
    ("sudo pacman -S --needed " ++ String.concat " " missing) true.

(** [except (subprocess.CalledProcessError, FileNotFoundError)] takes the
    exception [e]. *)
Definition install_caught (host : Host) (e : Exn) : bool :=
  existsb (isinstance host e) ["CalledProcessError"; "FileNotFoundError"].

(** The names [build_terminal_cmd] has a branch of its own for. *)
Definition special_cased : list string :=
  ["kitty"; "foot"; "alacritty"; "wezterm"; "gnome-terminal"; "konsole"].

(** The toolkit escapes every string with [esc] and takes every call. *)
Definition obliging (tk : Toolkit) (esc : string -> string) : Prop :=
  (forall s, markup_escape_text tk (PStr s) = Ret (esc s)) /\
  (forall c, gtk tk c = None).

(* ========================================================================= *)
(** ** Facts about strings and dictionaries *)
(* ========================================================================= *)

Section StringFacts.

Lemma is_empty_true (s : string) : is_empty s = true <-> s = "".
Proof. destruct s; cbn; split; congruence. Qed.

Lemma rstrip_nonspace (c : ascii) (s : string) :
  is_space c = false -> is_empty (rstrip (String c s)) = false.
Proof. intros Hc. cbn. rewrite Hc. reflexivity. Qed.

(** A string strips to nothing exactly when it is all whitespace. *)
Lemma strip_blank (s : string) : is_empty (strip s) = all_space s.
Proof.
  unfold strip.
  induction s as [|c s IH]; [reflexivity|].
  cbn [lstrip all_space].
  destruct (is_space c) eqn:Hc.
  - exact IH.
  - now rewrite rstrip_nonspace.
Qed.

Lemma prefix_app (sub s : string) :
  prefix sub s = true <-> exists b, s = sub ++ b.
Proof.
  revert s. induction sub as [|c sub IH]; intros s.
  - split; [intros _; exists s; reflexivity|]. now destruct s.
  - destruct s as [|d s]; cbn.
    + split; [discriminate|]. intros [b Hb]. discriminate.
    + destruct (Ascii.ascii_dec c d) as [->|Hne].
      * rewrite IH. split; intros [b Hb]; exists b; congruence.
      * split; [discriminate|]. intros [b Hb]. congruence.
Qed.

(** [str_in] is the substring test. *)
Lemma str_in_spec (sub s : string) :
  str_in sub s = true <-> exists a b, s = a ++ sub ++ b.
Proof.
  induction s as [|c s IH].
  - cbn [str_in]. destruct (prefix sub "") eqn:Hp.
    + split; [intros _|reflexivity].
      apply prefix_app in Hp as [b Hb]. now exists "", b.
    + split; [discriminate|]. intros [a [b Hab]].
      destruct a; [|discriminate]. cbn in Hab.
      assert (prefix sub "" = true) by (apply prefix_app; now exists b).
      congruence.
  - cbn [str_in]. destruct (prefix sub (String c s)) eqn:Hp.
    + split; [intros _|reflexivity].
      apply prefix_app in Hp as [b Hb]. now exists "", b.
    + rewrite IH. split.
      * intros [a [b Hab]]. exists (String c a), b. cbn. now f_equal.
      * intros [a [b Hab]]. destruct a as [|d a].
        -- cbn in Hab.
           assert (prefix sub (String c s) = true)
             by (apply prefix_app; now exists b).
           congruence.
        -- cbn in Hab. injection Hab as _ Hs. now exists a, b.
Qed.

Lemma dict_get_absent (d : Dict) (key : string) (default : PyVal) :
  dict_has d key = false -> dict_get d key default = default.
Proof.
  induction d as [|[k v] d IH]; cbn; [reflexivity|].
  destruct (String.eqb k key); cbn; [discriminate|exact IH].
Qed.

End StringFacts.

(* ========================================================================= *)
(** ** Terminal resolver *)
(* ========================================================================= *)

Section TerminalResolver.

Variable os : OS.

Lemma find_terminal_loop_some (terms : list string) (t : string) :
  find_terminal_loop os terms = Some t <->
  exists i, first_resolvable os terms i t.
Proof.
  unfold first_resolvable.
  induction terms as [|term rest IH]; cbn [find_terminal_loop].
  - split; [discriminate|]. intros [i [Hi _]]. now destruct i.
  - destruct (resolves os term) eqn:Hr.
    + split.
      * intros [= <-]. exists 0. repeat split; auto. intros j t' Hj. lia.
      * intros [[|i] [Hi [Ht Hbefore]]].
        -- cbn in Hi. congruence.
        -- specialize (Hbefore 0 term (Nat.lt_0_succ i) eq_refl). congruence.
    + rewrite IH. split.
      * intros [i [Hi [Ht Hbefore]]]. exists (S i). repeat split; auto.
        intros [|j] t' Hj Hn; cbn in Hn.
        -- congruence.
        -- apply (Hbefore j); [lia|assumption].
      * intros [[|i] [Hi [Ht Hbefore]]].
        -- cbn in Hi. congruence.
        -- exists i. repeat split; auto.
           intros j t' Hj Hn. apply (Hbefore (S j)); [lia|exact Hn].
Qed.

Lemma find_terminal_loop_none (terms : list string) :
  find_terminal_loop os terms = None <->
  forall t, In t terms -> resolves os t = false.
Proof.
  induction terms as [|term rest IH]; cbn [find_terminal_loop].
  - split; [intros _ t []|reflexivity].
  - destruct (resolves os term) eqn:Hr.
    + split; [discriminate|]. intros H.
      specialize (H term (or_introl eq_refl)). congruence.
    + rewrite IH. split.
      * intros H t [<-|Hin]; auto.
      * intros H t Hin. apply H. now right.
Qed.

(** A resolved terminal is one of [TERMINALS], so it is not the empty
    string. *)
Lemma find_terminal_nonempty (t : string) :
  find_terminal os = Some t -> is_empty t = false.
Proof.
  intros H. apply find_terminal_loop_some in H as [i [Hi _]].
  apply nth_error_In in Hi. cbn in Hi.
  repeat (destruct Hi as [<-|Hi]; [reflexivity|]). destruct Hi.
Qed.

End TerminalResolver.

(** Every branch of [build_terminal_cmd] ends with [sh -c full_cmd]. *)
Lemma build_terminal_cmd_lastn (terminal title shell_cmd : string)
    (wait : bool) :
  lastn 3 (build_terminal_cmd terminal title shell_cmd wait) =
  ["sh"; "-c"; if wait then shell_cmd ++ WAIT_SUFFIX else shell_cmd].
Proof.
  unfold build_terminal_cmd.
  repeat match goal with
         | |- context [if String.eqb ?a ?b then _ else _] =>
             destruct (String.eqb a b)
         end; reflexivity.
Qed.

(** The flags before the last element do not depend on [wait]. *)
Lemma build_terminal_cmd_removelast (terminal title shell_cmd : string)
    (wait : bool) :
  removelast (build_terminal_cmd terminal title shell_cmd wait) =
  removelast (build_terminal_cmd terminal title shell_cmd false).
Proof.
  unfold build_terminal_cmd.
  repeat match goal with
         | |- context [if String.eqb ?a ?b then _ else _] =>
             destruct (String.eqb a b)
         end; reflexivity.
Qed.

(** C4. For each of the seven recognized terminal names and every title,
    shell command and wait flag, the last three elements of what
    [build_terminal_cmd] returns are [sh], [-c] and one command string.
    Without [wait] that string is the shell command; with [wait] it is the
    shell command followed, in the same string, by an empty echo, the echo of
    [Press Enter to close...] and [read]. Everything before the command
    string is the same with and without [wait]: no flag is added. *)
Theorem build_terminal_cmd_sh_c (terminal title shell_cmd : string)
    (wait : bool) :
  In terminal TERMINALS ->
  exists full_cmd,
    lastn 3 (build_terminal_cmd terminal title shell_cmd wait)
      = ["sh"; "-c"; full_cmd] /\
    (wait = false -> full_cmd = shell_cmd) /\
    (wait = true ->
       full_cmd = shell_cmd ++ "; echo " ++ dquote ++ dquote
                  ++ "; echo " ++ dquote ++ "Press Enter to close..."
                  ++ dquote ++ "; read") /\
    removelast (build_terminal_cmd terminal title shell_cmd wait)
      = removelast (build_terminal_cmd terminal title shell_cmd false) /\
    length TERMINALS = 7.
Proof.
  intros _.
  exists (if wait then shell_cmd ++ WAIT_SUFFIX else shell_cmd).
  split; [apply build_terminal_cmd_lastn|].
  split; [now intros ->|].
  split; [now intros ->|].
  split; [apply build_terminal_cmd_removelast|reflexivity].
Qed.

Lemma build_terminal_cmd_sh_c_witness :
  exists full_cmd,
    lastn 3 (build_terminal_cmd "gnome-terminal" "Installer" "ls -l" true)
      = ["sh"; "-c"; full_cmd] /\
    (true = false -> full_cmd = "ls -l") /\
    (true = true ->
       full_cmd = "ls -l" ++ "; echo " ++ dquote ++ dquote
                  ++ "; echo " ++ dquote ++ "Press Enter to close..."
                  ++ dquote ++ "; read") /\
    removelast (build_terminal_cmd "gnome-terminal" "Installer" "ls -l" true)
      = removelast
          (build_terminal_cmd "gnome-terminal" "Installer" "ls -l" false) /\
    length TERMINALS = 7.
Proof.
  apply (build_terminal_cmd_sh_c "gnome-terminal" "Installer" "ls -l" true).
  cbn. tauto.
Defined.

(** C5. [find_terminal] returns the earliest name of the preference order
    kitty, foot, alacritty, wezterm, gnome-terminal, konsole, xfce4-terminal
    that resolves on the executable search path: it returns [t] exactly when
    [t] stands at some position of that order, resolves, and no name at an
    earlier position resolves. It returns None exactly when none of the seven
    resolves. *)
Theorem find_terminal_earliest (os : OS) :
  TERMINALS = ["kitty"; "foot"; "alacritty"; "wezterm"; "gnome-terminal";
               "konsole"; "xfce4-terminal"] /\
  (forall t, find_terminal os = Some t <->
             exists i, first_resolvable os TERMINALS i t) /\
  (find_terminal os = None <->
   forall t, In t TERMINALS -> resolves os t = false).
Proof.
  split; [reflexivity|]. split.
  - intros t. apply find_terminal_loop_some.
  - apply find_terminal_loop_none.
Qed.

(** On a machine with konsole and foot, foot is chosen; on one with no
    terminal emulator, none is. *)
Lemma find_terminal_earliest_witness :
  find_terminal Sample.os_foot = Some "foot" /\
  find_terminal Sample.os_bare = None.
Proof.
  split.
  - apply (proj1 (proj2 (find_terminal_earliest Sample.os_foot))).
    exists 1. repeat split.
    intros j t' Hj Hn. destruct j as [|j]; [|lia].
    cbn in Hn. injection Hn as <-. reflexivity.
  - apply (proj2 (proj2 (find_terminal_earliest Sample.os_bare))).
    intros t _. reflexivity.
Defined.

(* ========================================================================= *)
(** ** Configuration loader *)
(* ========================================================================= *)

Section Loader.

Variable os : OS.

Lemma error_config_shape (msg : string) : is_error_config (_error_config msg) msg.
Proof.
  unfold is_error_config, _error_config.
  do 4 eexists. repeat split; reflexivity.
Qed.

Lemma load_config_missing :
  isfile os (config_path os) = false ->
  load_config os =
  Ret (_error_config ("Config file missing: " ++ CONFIG_FILENAME)).
Proof.
  unfold load_config. fold (config_path os). now intros ->.
Qed.

Lemma load_config_open_raises (e : Exn) :
  isfile os (config_path os) = true ->
  open_r os (config_path os) = Raise e ->
  load_config os = Ret (_error_config (exn_str e)).
Proof.
  unfold load_config. fold (config_path os). now intros -> ->.
Qed.

Lemma load_config_parse_raises (f : string) (e : Exn) :
  isfile os (config_path os) = true ->
  open_r os (config_path os) = Ret f ->
  safe_load os f = Raise e ->
  load_config os = Ret (_error_config (exn_str e)).
Proof.
  unfold load_config. fold (config_path os). intros -> -> H. cbn. now rewrite H.
Qed.

Lemma load_config_parsed (f : string) (data : PyVal) :
  isfile os (config_path os) = true ->
  open_r os (config_path os) = Ret f ->
  safe_load os f = Ret data ->
  load_config os =
  Ret (if truthy data then data else PDict [("pages", PList [])]).
Proof.
  unfold load_config. fold (config_path os). intros -> -> H. cbn. now rewrite H.
Qed.

(** [load_config] never raises. *)
Lemma load_config_returns : exists cfg, load_config os = Ret cfg.
Proof.
  unfold load_config.
  destruct (isfile os _); cbn; [|eauto].
  destruct (open_r os _) as [f|e]; cbn; [|eauto].
  destruct (safe_load os f); cbn; eauto.
Qed.

End Loader.

(** C6. When the configuration file does not exist, [load_config] returns
    the synthetic configuration whose message is [Config file missing: ]
    followed by the configuration filename, so the message contains the
    filename. When the file exists and opening it raises [e], or parsing it
    raises [e], [load_config] returns the synthetic configuration whose
    message is [str(e)]. In every environment [load_config] returns and does
    not raise. The synthetic configuration for a message has exactly one
    page, named Error, with one group with one item whose description is the
    message. *)
Theorem load_config_fails_soft (os : OS) :
  (isfile os (config_path os) = false ->
   exists msg,
     load_config os = Ret (_error_config msg) /\
     msg = "Config file missing: dusky_config.yaml" /\
     str_in CONFIG_FILENAME msg = true) /\
  (forall e,
     isfile os (config_path os) = true ->
     open_r os (config_path os) = Raise e ->
     load_config os = Ret (_error_config (exn_str e))) /\
  (forall f e,
     isfile os (config_path os) = true ->
     open_r os (config_path os) = Ret f ->
     safe_load os f = Raise e ->
     load_config os = Ret (_error_config (exn_str e))) /\
  (exists cfg, load_config os = Ret cfg) /\
  (forall msg, is_error_config (_error_config msg) msg).
Proof.
  split.
  { intros H. eexists. split; [now apply load_config_missing|].
    split; reflexivity. }
  split; [intros e; apply load_config_open_raises|].
  split; [intros f e; apply load_config_parse_raises|].
  split; [apply load_config_returns|apply error_config_shape].
Qed.

(** Two failures on sample machines: no file; a file that does not
    parse. *)
Lemma load_config_fails_soft_witness :
  load_config Sample.os_foot
    = Ret (_error_config "Config file missing: dusky_config.yaml") /\
  load_config
    (Sample.os_of []
       (Some (Raise (mkExn "ScannerError"
                       "mapping values are not allowed here")))
       Sample.never_fails)
    = Ret (_error_config "mapping values are not allowed here").
Proof.
  split.
  - destruct (proj1 (load_config_fails_soft Sample.os_foot) eq_refl)
      as [msg [H [-> _]]].
    exact H.
  - apply (proj1 (proj2 (proj2 (load_config_fails_soft _)))
             "/opt/dusky/dusky_config.yaml"
             (mkExn "ScannerError" "mapping values are not allowed here"));
      reflexivity.
Defined.

(** C7. When the configuration file exists, is opened, and parses to the
    null document, [load_config] returns the configuration with an empty
    list of pages. *)
Theorem load_config_null_document (os : OS) (f : string) :
  isfile os (config_path os) = true ->
  open_r os (config_path os) = Ret f ->
  safe_load os f = Ret PNone ->
  load_config os = Ret (PDict [("pages", PList [])]).
Proof.
  intros Hfile Hopen Hload.
  now rewrite (load_config_parsed os f PNone).
Qed.

Lemma load_config_null_document_witness :
  load_config Sample.os_bare = Ret (PDict [("pages", PList [])]).
Proof.
  apply (load_config_null_document Sample.os_bare
           "/opt/dusky/dusky_config.yaml"); reflexivity.
Defined.

(** C10. When the configuration file exists, is opened, and parses to a
    document that is falsy, [load_config] returns the configuration with an
    empty list of pages and not the parsed document; the empty mapping, the
    empty list, false and 0 are such documents. *)
Theorem load_config_falsy_document (os : OS) (f : string) (data : PyVal) :
  isfile os (config_path os) = true ->
  open_r os (config_path os) = Ret f ->
  safe_load os f = Ret data ->
  truthy data = false \/
    In data [PDict []; PList []; PBool false; PInt 0] ->
  load_config os = Ret (PDict [("pages", PList [])]).
Proof.
  intros Hfile Hopen Hload Hfalsy.
  assert (Hf : truthy data = false).
  { destruct Hfalsy as [H|H]; [exact H|].
    cbn in H. repeat (destruct H as [<-|H]; [reflexivity|]). destruct H. }
  rewrite (load_config_parsed os f data) by assumption.
  now rewrite Hf.
Qed.

Lemma load_config_falsy_document_witness :
  load_config (Sample.os_of [] (Some (Ret (PList []))) Sample.never_fails)
    = Ret (PDict [("pages", PList [])]) /\
  load_config (Sample.os_of [] (Some (Ret (PInt 0))) Sample.never_fails)
    = Ret (PDict [("pages", PList [])]).
Proof.
  split.
  - apply (load_config_falsy_document _ "/opt/dusky/dusky_config.yaml"
             (PList [])); try reflexivity.
    right. cbn. tauto.
  - apply (load_config_falsy_document _ "/opt/dusky/dusky_config.yaml"
             (PInt 0)); try reflexivity.
    left. reflexivity.
Defined.

(* ========================================================================= *)
(** ** Command dispatcher: what one click does *)
(* ========================================================================= *)

Section TraceFacts.

Lemma popen_calls_app (tr1 tr2 : list Event) :
  popen_calls (tr1 ++ tr2)%list = (popen_calls tr1 ++ popen_calls tr2)%list.
Proof.
  induction tr1 as [|ev tr1 IH]; [reflexivity|].
  destruct ev; cbn; now rewrite IH.
Qed.

Lemma popen_calls_In (c : PopenCall) (tr : list Event) :
  In (EvPopen c) tr -> In c (popen_calls tr).
Proof.
  induction tr as [|ev tr IH]; [intros []|].
  intros [->|Hin]; [now left|].
  destruct ev; cbn; auto.
Qed.

Lemma popen_calls_outcome (os : OS) (c : PopenCall) :
  popen_calls (spawn_outcome os c) = [].
Proof. unfold spawn_outcome. now destruct (popen os c). Qed.

Lemma expandvars_calls_app (tr1 tr2 : list Event) :
  expandvars_calls (tr1 ++ tr2)%list
  = (expandvars_calls tr1 ++ expandvars_calls tr2)%list.
Proof.
  induction tr1 as [|ev tr1 IH]; [reflexivity|].
  destruct ev; cbn; now rewrite IH.
Qed.

End TraceFacts.

Section Dispatcher.

Variable os : OS.

Lemma popen_guarded (c : PopenCall) (tr : list Event) :
  try_except (subprocess_Popen os c) log_error tr
  = (Ret tt, (tr ++ EvPopen c :: spawn_outcome os c)%list).
Proof.
  unfold try_except, subprocess_Popen, spawn_outcome, log_error, print, emit,
    raise.
  cbn. destruct (popen os c) as [e|]; cbn.
  - now rewrite <- app_assoc.
  - reflexivity.
Qed.

Lemma spawn_process_guarded (cmd : string) (wrap : PyVal) (tr : list Event) :
  try_except (_spawn_process os cmd wrap) log_error tr
  = (Ret tt,
     (tr ++ EvPopen (if truthy wrap then wrapped_call cmd else raw_call cmd)
         :: spawn_outcome os
              (if truthy wrap then wrapped_call cmd else raw_call cmd))%list).
Proof.
  unfold _spawn_process. rewrite popen_guarded.
  now destruct (truthy wrap).
Qed.

Lemma print_then_guarded (m : LogMsg) (c : M unit) (tr : list Event) :
  try_except (print m ;;; c) log_error tr
  = try_except c log_error (tr ++ [EvPrint m])%list.
Proof. reflexivity. Qed.

Lemma spawn_terminal_guarded (self : App) (cmd : string) (tr : list Event) :
  try_except (_spawn_terminal os self cmd) log_error tr
  = (Ret tt,
     (tr ++ fst (dispatched self (PBool true) PNone cmd)
         ++ EvPopen (snd (dispatched self (PBool true) PNone cmd))
         :: spawn_outcome os (snd (dispatched self (PBool true) PNone cmd)))
     %list).
Proof.
  unfold _spawn_terminal, dispatched. cbn [truthy].
  destruct (_terminal self) as [t|]; [destruct (is_empty t)|].
  - rewrite print_then_guarded, spawn_process_guarded.
    cbn [fst snd truthy]. now rewrite <- app_assoc.
  - apply popen_guarded.
  - rewrite print_then_guarded, spawn_process_guarded.
    cbn [fst snd truthy]. now rewrite <- app_assoc.
Qed.

(** A click on an item whose command is a string that is not blank: the
    command is expanded, the decision is logged, one spawn is made, and a
    failure of the spawn is logged. The handler returns. *)
Lemma on_run_clicked_nonblank (self : App) (item_data : Dict) (s : string) :
  dict_get item_data "command" (PStr "") = PStr s ->
  all_space s = false ->
  let cmd := expandvars os s in
  let use_terminal := dict_get item_data "terminal" (PBool false) in
  let use_uwsm :=
    if str_in "uwsm-app" cmd then PBool false
    else dict_get item_data "use_uwsm" (PBool true) in
  let d := dispatched self use_terminal use_uwsm cmd in
  run (_on_run_clicked os self item_data)
  = (Ret tt,
     (EvExpandvars s :: EvPrint (LogExec cmd use_terminal use_uwsm)
        :: fst d ++ EvPopen (snd d) :: spawn_outcome os (snd d))%list).
Proof.
  intros Hcmd Hblank cmd use_terminal use_uwsm d.
  unfold run, _on_run_clicked. rewrite Hcmd.
  cbn [py_strip mbind mret M_Monad]. rewrite strip_blank, Hblank.
  cbn [os_path_expandvars mbind mret M_Monad emit print app].
  fold cmd use_terminal use_uwsm log_error.
  unfold d, dispatched.
  destruct (truthy use_terminal) eqn:Hterm.
  - rewrite spawn_terminal_guarded. unfold dispatched. reflexivity.
  - rewrite spawn_process_guarded. reflexivity.
Qed.

(** A click on an item whose command is a blank string does nothing. *)
Lemma on_run_clicked_blank (self : App) (item_data : Dict) (s : string) :
  dict_get item_data "command" (PStr "") = PStr s ->
  all_space s = true ->
  run (_on_run_clicked os self item_data) = (Ret tt, []).
Proof.
  intros Hcmd Hblank. unfold run, _on_run_clicked. rewrite Hcmd.
  cbn [py_strip mbind mret M_Monad]. now rewrite strip_blank, Hblank.
Qed.

(** After [do_startup] the application holds what [find_terminal] found. *)
Lemma do_startup_terminal (self0 self : App) :
  do_startup os self0 = Ret self -> _terminal self = find_terminal os.
Proof.
  unfold do_startup. destruct (load_config_returns os) as [cfg ->].
  cbn. now intros [= <-].
Qed.

End Dispatcher.

(* ========================================================================= *)
(** ** Command dispatcher: the properties *)
(* ========================================================================= *)

(** C1. Take an item whose command is a string that is not blank and whose
    [terminal] flag is true, clicked in an application that went through
    [do_startup]. If [find_terminal] resolved the terminal [t], the click
    makes exactly one spawn: the argument list [uwsm-app], [--] followed by
    [build_terminal_cmd t APP_TITLE expanded_cmd True], without a shell, in
    a new session, with the three standard streams discarded. If no terminal
    was resolved, the one spawn is the background spawn with the wrapper
    forced on: [uwsm-app -- sh -c expanded_cmd] as an argument list. The
    item's [use_uwsm] flag appears in neither: it has no influence. *)
Theorem terminal_item_always_wrapped (os : OS) (self0 self : App)
    (item_data : Dict) (s : string) :
  dict_get item_data "command" (PStr "") = PStr s ->
  all_space s = false ->
  truthy (dict_get item_data "terminal" (PBool false)) = true ->
  do_startup os self0 = Ret self ->
  let cmd := expandvars os s in
  let spawned := popen_calls (snd (run (_on_run_clicked os self item_data))) in
  (forall t, find_terminal os = Some t ->
     spawned =
     [{| args := ArgList (["uwsm-app"; "--"]
                          ++ build_terminal_cmd t APP_TITLE cmd true);
         shell := false;
         start_new_session := true;
         stdin := DEVNULL; stdout := DEVNULL; stderr := DEVNULL |}]) /\
  (find_terminal os = None ->
     spawned =
     [{| args := ArgList ["uwsm-app"; "--"; "sh"; "-c"; cmd];
         shell := false;
         start_new_session := true;
         stdin := DEVNULL; stdout := DEVNULL; stderr := DEVNULL |}]).
Proof.
  intros Hcmd Hblank Hterm Hstart cmd spawned.
  apply do_startup_terminal in Hstart.
  unfold spawned.
  rewrite (on_run_clicked_nonblank os self item_data s Hcmd Hblank).
  cbn [snd popen_calls]. fold cmd.
  unfold dispatched. rewrite Hterm, Hstart.
  split.
  - intros t Ht. rewrite Ht, (find_terminal_nonempty os t Ht).
    cbn [fst snd app popen_calls]. now rewrite popen_calls_outcome.
  - intros Hnone. rewrite Hnone.
    cbn [fst snd app popen_calls]. now rewrite popen_calls_outcome.
Qed.

(** An item that asks for a terminal and sets [use_uwsm] to false, on a
    machine where foot resolves. *)
Lemma terminal_item_always_wrapped_witness :
  let self := {| config := _error_config
                             "Config file missing: dusky_config.yaml";
                 _terminal := Some "foot" |} in
  let spawned :=
    popen_calls
      (snd (run (_on_run_clicked Sample.os_foot self Sample.item_term))) in
  (forall t, find_terminal Sample.os_foot = Some t ->
     spawned =
     [{| args := ArgList (["uwsm-app"; "--"]
                          ++ build_terminal_cmd t APP_TITLE "htop" true);
         shell := false;
         start_new_session := true;
         stdin := DEVNULL; stdout := DEVNULL; stderr := DEVNULL |}]) /\
  (find_terminal Sample.os_foot = None ->
     spawned =
     [{| args := ArgList ["uwsm-app"; "--"; "sh"; "-c"; "htop"];
         shell := false;
         start_new_session := true;
         stdin := DEVNULL; stdout := DEVNULL; stderr := DEVNULL |}]).
Proof.
  apply (terminal_item_always_wrapped Sample.os_foot App_init _
           Sample.item_term "htop"); reflexivity.
Defined.

(** C2. Take an item whose command is a string that is not blank and whose
    [terminal] flag is false. The effective [use_uwsm] is false when the
    expanded command contains [uwsm-app] and the item's flag (true when
    absent) otherwise; it is the value the handler logs. When it is true the
    click makes exactly one spawn, the argument list
    [uwsm-app -- sh -c expanded_cmd] without a shell; when it is false the
    one spawn is the expanded command as a string, through a shell. Both are
    in a new session with the three standard streams discarded. *)
Theorem background_item_spawn (os : OS) (self : App) (item_data : Dict)
    (s : string) :
  dict_get item_data "command" (PStr "") = PStr s ->
  all_space s = false ->
  truthy (dict_get item_data "terminal" (PBool false)) = false ->
  let cmd := expandvars os s in
  let use_uwsm :=
    if str_in "uwsm-app" cmd then PBool false
    else dict_get item_data "use_uwsm" (PBool true) in
  let tr := snd (run (_on_run_clicked os self item_data)) in
  In (EvPrint (LogExec cmd (dict_get item_data "terminal" (PBool false))
                 use_uwsm)) tr /\
  (truthy use_uwsm = true ->
     popen_calls tr =
     [{| args := ArgList ["uwsm-app"; "--"; "sh"; "-c"; cmd];
         shell := false;
         start_new_session := true;
         stdin := DEVNULL; stdout := DEVNULL; stderr := DEVNULL |}]) /\
  (truthy use_uwsm = false ->
     popen_calls tr =
     [{| args := ArgStr cmd;
         shell := true;
         start_new_session := true;
         stdin := DEVNULL; stdout := DEVNULL; stderr := DEVNULL |}]).
Proof.
  intros Hcmd Hblank Hterm cmd use_uwsm tr.
  unfold tr.
  rewrite (on_run_clicked_nonblank os self item_data s Hcmd Hblank).
  cbn [snd]. fold cmd use_uwsm.
  split; [right; left; reflexivity|].
  cbn [popen_calls]. unfold dispatched. rewrite Hterm.
  cbn [fst snd app popen_calls]. rewrite popen_calls_outcome.
  split; intros ->; reflexivity.
Qed.

(** The item [echo hi], with no [terminal] and no [use_uwsm] key. *)
Lemma background_item_spawn_witness :
  let tr :=
    snd (run (_on_run_clicked Sample.os_foot (Sample.app_of Sample.os_foot)
                Sample.item_echo)) in
  In (EvPrint (LogExec "echo hi" (PBool false) (PBool true))) tr /\
  (truthy (PBool true) = true ->
     popen_calls tr =
     [{| args := ArgList ["uwsm-app"; "--"; "sh"; "-c"; "echo hi"];
         shell := false;
         start_new_session := true;
         stdin := DEVNULL; stdout := DEVNULL; stderr := DEVNULL |}]) /\
  (truthy (PBool true) = false ->
     popen_calls tr =
     [{| args := ArgStr "echo hi";
         shell := true;
         start_new_session := true;
         stdin := DEVNULL; stdout := DEVNULL; stderr := DEVNULL |}]).
Proof.
  apply (background_item_spawn Sample.os_foot (Sample.app_of Sample.os_foot)
           Sample.item_echo "echo hi"); reflexivity.
Defined.

(** C3. Take an item whose command is a string that is not blank. The
    handler expands the command and then logs the effective [use_uwsm].
    If the expanded command contains [uwsm-app], that value is false,
    whatever the item's flag; otherwise it is the item's [use_uwsm] flag,
    which is true when the item has no such key. When the item does not ask
    for a terminal, that value decides the spawn: wrapped argument list
    without a shell when it is true, the raw string through a shell when it
    is false. *)
Theorem use_uwsm_effective (os : OS) (self : App) (item_data : Dict)
    (s : string) :
  dict_get item_data "command" (PStr "") = PStr s ->
  all_space s = false ->
  let cmd := expandvars os s in
  let use_terminal := dict_get item_data "terminal" (PBool false) in
  let has_token := exists a b, cmd = a ++ "uwsm-app" ++ b in
  exists use_uwsm rest,
    snd (run (_on_run_clicked os self item_data))
      = EvExpandvars s :: EvPrint (LogExec cmd use_terminal use_uwsm) :: rest /\
    (has_token -> use_uwsm = PBool false) /\
    (~ has_token ->
       use_uwsm = dict_get item_data "use_uwsm" (PBool true) /\
       (dict_has item_data "use_uwsm" = false -> use_uwsm = PBool true)) /\
    (truthy use_terminal = false ->
       popen_calls rest =
       [{| args := if truthy use_uwsm
                   then ArgList ["uwsm-app"; "--"; "sh"; "-c"; cmd]
                   else ArgStr cmd;
           shell := negb (truthy use_uwsm);
           start_new_session := true;
           stdin := DEVNULL; stdout := DEVNULL; stderr := DEVNULL |}]).
Proof.
  intros Hcmd Hblank cmd use_terminal has_token.
  rewrite (on_run_clicked_nonblank os self item_data s Hcmd Hblank).
  cbn [snd]. fold cmd use_terminal.
  eexists. eexists. split; [reflexivity|].
  unfold has_token. rewrite <- str_in_spec.
  split; [now intros ->|]. split.
  - intros Hno. apply not_true_is_false in Hno. rewrite Hno.
    split; [reflexivity|]. apply dict_get_absent.
  - intros Hterm. unfold dispatched. rewrite Hterm.
    cbn [fst snd app popen_calls]. rewrite popen_calls_outcome.
    match goal with
    | |- context [if truthy ?u then wrapped_call _ else _] =>
        destruct (truthy u)
    end; reflexivity.
Qed.

(** An item that already invokes the launcher and sets [use_uwsm] to true:
    the effective value is false and the command goes through a shell. *)
Lemma use_uwsm_effective_witness :
  let item_data :=
    [("command", PStr "uwsm-app -- firefox"); ("use_uwsm", PBool true)] in
  let cmd := "uwsm-app -- firefox" in
  let has_token := exists a b, cmd = a ++ "uwsm-app" ++ b in
  exists use_uwsm rest,
    snd (run (_on_run_clicked Sample.os_foot (Sample.app_of Sample.os_foot)
                item_data))
      = EvExpandvars cmd :: EvPrint (LogExec cmd (PBool false) use_uwsm)
          :: rest /\
    (has_token -> use_uwsm = PBool false) /\
    (~ has_token ->
       use_uwsm = dict_get item_data "use_uwsm" (PBool true) /\
       (dict_has item_data "use_uwsm" = false -> use_uwsm = PBool true)) /\
    (truthy (PBool false) = false ->
       popen_calls rest =
       [{| args := if truthy use_uwsm
                   then ArgList ["uwsm-app"; "--"; "sh"; "-c"; cmd]
                   else ArgStr cmd;
           shell := negb (truthy use_uwsm);
           start_new_session := true;
           stdin := DEVNULL; stdout := DEVNULL; stderr := DEVNULL |}]).
Proof.
  apply (use_uwsm_effective Sample.os_foot (Sample.app_of Sample.os_foot)
           [("command", PStr "uwsm-app -- firefox"); ("use_uwsm", PBool true)]
           "uwsm-app -- firefox"); reflexivity.
Defined.

(** C8. Take an item that has no [command] key, or whose command is the
    empty string, or a string of whitespace only (one that strips to the
    empty string). A click on it returns without raising and calls nothing:
    the trace is empty, so there is no spawn and no environment-variable
    expansion. *)
Theorem blank_command_no_spawn (os : OS) (self : App) (item_data : Dict) :
  dict_has item_data "command" = false \/
  (exists s, dict_get item_data "command" (PStr "") = PStr s /\
             (s = "" \/ all_space s = true \/ strip s = "")) ->
  run (_on_run_clicked os self item_data) = (Ret tt, []) /\
  popen_calls (snd (run (_on_run_clicked os self item_data))) = [] /\
  expandvars_calls (snd (run (_on_run_clicked os self item_data))) = [].
Proof.
  intros H.
  assert (Hrun : run (_on_run_clicked os self item_data) = (Ret tt, [])).
  { destruct H as [Habsent|[s [Hcmd Hs]]].
    - apply (on_run_clicked_blank os self item_data "");
        [now apply dict_get_absent|reflexivity].
    - apply (on_run_clicked_blank os self item_data s Hcmd).
      destruct Hs as [->|[Hs|Hs]]; [reflexivity|exact Hs|].
      rewrite <- strip_blank. now apply is_empty_true. }
  rewrite Hrun. repeat split.
Qed.

(** An item without a command, and one whose command is a space, a tab and
    a newline, on a machine where every spawn would fail. *)
Lemma blank_command_no_spawn_witness :
  (run (_on_run_clicked Sample.os_broken (Sample.app_of Sample.os_broken)
          [("title", PStr "Nothing")]) = (Ret tt, [])) /\
  (run (_on_run_clicked Sample.os_broken (Sample.app_of Sample.os_broken)
          [("command", PStr (String " " (String "009" (String "010" ""))));
           ("terminal", PBool true)]) = (Ret tt, [])).
Proof.
  split.
  - apply (blank_command_no_spawn Sample.os_broken _
             [("title", PStr "Nothing")]).
    left. reflexivity.
  - apply (blank_command_no_spawn Sample.os_broken).
    right. eexists. split; [reflexivity|]. right. left. reflexivity.
Defined.

(** C9. Take an item whose command is a string, in any environment and any
    application state. The click handler returns and does not raise. Every
    [Popen] call it makes that raises an exception [e] is followed by the
    log of [e], and that log ends the trace: the exception is caught and
    logged in the terminal branch and in the background branch alike. *)
Theorem spawn_exception_caught (os : OS) (self : App) (item_data : Dict)
    (s : string) :
  dict_get item_data "command" (PStr "") = PStr s ->
  fst (run (_on_run_clicked os self item_data)) = Ret tt /\
  forall c e,
    In (EvPopen c) (snd (run (_on_run_clicked os self item_data))) ->
    popen os c = Some e ->
    exists tr,
      snd (run (_on_run_clicked os self item_data))
      = (tr ++ [EvPopen c; EvPrint (LogError e)])%list.
Proof.
  intros Hcmd.
  destruct (all_space s) eqn:Hblank.
  - rewrite (on_run_clicked_blank os self item_data s Hcmd Hblank).
    split; [reflexivity|]. intros c e [].
  - rewrite (on_run_clicked_nonblank os self item_data s Hcmd Hblank).
    cbn [fst snd]. split; [reflexivity|].
    set (d := dispatched _ _ _ _).
    intros c e Hin He.
    assert (Hc : c = snd d).
    { apply popen_calls_In in Hin. cbn [popen_calls] in Hin.
      rewrite popen_calls_app in Hin. cbn [popen_calls] in Hin.
      rewrite popen_calls_outcome in Hin.
      assert (Hpre : popen_calls (fst d) = []).
      { unfold d, dispatched.
        destruct (truthy _); [|reflexivity].
        destruct (_terminal self) as [t|]; [destruct (is_empty t)|];
          reflexivity. }
      rewrite Hpre in Hin. destruct Hin as [<-|[]]. reflexivity. }
    subst c. unfold spawn_outcome. rewrite He.
    exists (EvExpandvars s :: EvPrint (LogExec (expandvars os s)
              (dict_get item_data "terminal" (PBool false))
              (if str_in "uwsm-app" (expandvars os s) then PBool false
               else dict_get item_data "use_uwsm" (PBool true))) :: fst d)%list.
    reflexivity.
Qed.

(** On a machine where no process can be started, a terminal item and a
    background item both return, with the failure logged. *)
Lemma spawn_exception_caught_witness :
  fst (run (_on_run_clicked Sample.os_broken (Sample.app_of Sample.os_broken)
              Sample.item_term)) = Ret tt /\
  fst (run (_on_run_clicked Sample.os_broken (Sample.app_of Sample.os_broken)
              Sample.item_echo)) = Ret tt /\
  exists tr,
    snd (run (_on_run_clicked Sample.os_broken
                (Sample.app_of Sample.os_broken) Sample.item_echo))
    = (tr ++ [EvPopen
                {| args := ArgList ["uwsm-app"; "--"; "sh"; "-c"; "echo hi"];
                   shell := false;
                   start_new_session := true;
                   stdin := DEVNULL; stdout := DEVNULL; stderr := DEVNULL |};
              EvPrint (LogError (mkExn "FileNotFoundError"
                                   "No such file or directory"))])%list.
Proof.
  split; [|split].
  - apply (spawn_exception_caught Sample.os_broken
             (Sample.app_of Sample.os_broken) Sample.item_term "htop").
    reflexivity.
  - apply (spawn_exception_caught Sample.os_broken
             (Sample.app_of Sample.os_broken) Sample.item_echo "echo hi").
    reflexivity.
  - apply (proj2 (spawn_exception_caught Sample.os_broken
                    (Sample.app_of Sample.os_broken) Sample.item_echo
                    "echo hi" eq_refl)).
    + right. right. left. reflexivity.
    + reflexivity.
Defined.

(* ========================================================================= *)
(** ** Further properties: terminal utilities *)
(* ========================================================================= *)

Section TerminalCommand.

Variables (terminal title shell_cmd : string) (wait : bool).

Lemma not_special_eqb :
  ~ In terminal special_cased ->
  String.eqb terminal "kitty" = false /\
  String.eqb terminal "foot" = false /\
  String.eqb terminal "alacritty" = false /\
  String.eqb terminal "wezterm" = false /\
  String.eqb terminal "gnome-terminal" = false /\
  String.eqb terminal "konsole" = false.
Proof.
  intros Hnot. repeat split; apply String.eqb_neq; intros ->;
    apply Hnot; cbn; tauto.
Qed.

Lemma build_terminal_cmd_generic :
  ~ In terminal special_cased ->
  build_terminal_cmd terminal title shell_cmd wait
  = [terminal; "-e"; "sh"; "-c";
     if wait then shell_cmd ++ WAIT_SUFFIX else shell_cmd].
Proof.
  intros Hnot.
  destruct (not_special_eqb Hnot) as (H1 & H2 & H3 & H4 & H5 & H6).
  unfold build_terminal_cmd. now rewrite H1, H2, H3, H4, H5, H6.
Qed.

Lemma build_terminal_cmd_head :
  hd_error (build_terminal_cmd terminal title shell_cmd wait) = Some terminal.
Proof.
  unfold build_terminal_cmd.
  repeat match goal with
         | |- context [if String.eqb ?a ?b then _ else _] =>
             destruct (String.eqb a b)
         end; reflexivity.
Qed.

End TerminalCommand.



(** X2. The window title reaches the terminal only for kitty, foot,
    alacritty, gnome-terminal and konsole: there the title, or for
    gnome-terminal [--title=] followed by it, is one of the arguments. For
    wezterm and for every name without a branch of its own the title is
    dropped: the command is the same for any two titles. *)
Theorem build_terminal_cmd_title (terminal shell_cmd : string) (wait : bool) :
  (In terminal special_cased -> terminal <> "wezterm" ->
   forall title,
     In title (build_terminal_cmd terminal title shell_cmd wait) \/
     In ("--title=" ++ title)
        (build_terminal_cmd terminal title shell_cmd wait)) /\
  (terminal = "wezterm" \/ ~ In terminal special_cased ->
   forall title1 title2,
     build_terminal_cmd terminal title1 shell_cmd wait
     = build_terminal_cmd terminal title2 shell_cmd wait).
Proof.
  split.
  - intros Hin Hne title. cbn in Hin.
    destruct Hin as [<-|[<-|[<-|[<-|[<-|[<-|[]]]]]]];
      try (left; cbn; tauto); try (right; cbn; tauto).
  - intros [->|Hnot] title1 title2; [reflexivity|].
    now rewrite !build_terminal_cmd_generic.
Qed.

Lemma build_terminal_cmd_title_witness :
  (In "Updates" (build_terminal_cmd "konsole" "Updates" "yay" true) \/
   In ("--title=" ++ "Updates")
      (build_terminal_cmd "konsole" "Updates" "yay" true)) /\
  build_terminal_cmd "wezterm" "Updates" "yay" true
  = build_terminal_cmd "wezterm" "Something else" "yay" true.
Proof.
  split.
  - apply (proj1 (build_terminal_cmd_title "konsole" "yay" true)).
    + cbn. tauto.
    + discriminate.
  - apply (proj2 (build_terminal_cmd_title "wezterm" "yay" true)).
    left. reflexivity.
Defined.

Lemma find_terminal_loop_ext (os os' : OS) (terms : list string) :
  (forall t, In t terms -> resolves os t = resolves os' t) ->
  find_terminal_loop os terms = find_terminal_loop os' terms.
Proof.
  induction terms as [|term rest IH]; intros Hsame; [reflexivity|].
  cbn. rewrite <- (Hsame term (or_introl eq_refl)).
  destruct (resolves os term); [reflexivity|].
  apply IH. intros t Hin. apply Hsame. now right.
Qed.

Lemma find_terminal_in_list (os : OS) (t : string) :
  find_terminal os = Some t -> In t TERMINALS /\ resolves os t = true.
Proof.
  intros H. apply find_terminal_loop_some in H as [i [Hi [Hr _]]].
  split; [now apply nth_error_In in Hi|exact Hr].
Qed.

(** X3. [find_terminal] never returns a name outside [TERMINALS], and what
    it returns resolves. Only the seven names are probed: two environments
    that resolve the same names among the seven give the same result,
    whatever else is installed. *)
Theorem find_terminal_only_known (os : OS) :
  (forall t, find_terminal os = Some t ->
             In t TERMINALS /\ resolves os t = true) /\
  (forall os',
     (forall t, In t TERMINALS -> resolves os t = resolves os' t) ->
     find_terminal os = find_terminal os').
Proof.
  split.
  - apply find_terminal_in_list.
  - intros os' Hsame. now apply find_terminal_loop_ext.
Qed.

(** A machine with foot, konsole and two other terminal emulators that the
    program does not know. *)
Lemma find_terminal_only_known_witness :
  find_terminal Sample.os_foot
  = find_terminal
      (Sample.os_of ["xterm"; "konsole"; "st"; "foot"] None
         Sample.never_fails).
Proof.
  apply (proj2 (find_terminal_only_known Sample.os_foot)).
  intros t Hin. cbn in Hin.
  repeat (destruct Hin as [<-|Hin]; [reflexivity|]). destruct Hin.
Defined.

(* ========================================================================= *)
(** ** Further properties: command dispatcher and loader *)
(* ========================================================================= *)

Section ClickFacts.

Variables (os : OS) (self : App) (item_data : Dict).

(** A click on an item whose command is not a string. *)
Lemma on_run_clicked_not_str (v : PyVal) :
  dict_get item_data "command" (PStr "") = v ->
  (forall s, v <> PStr s) ->
  run (_on_run_clicked os self item_data)
  = (Raise (mkExn "AttributeError"
              ("'" ++ type_name v ++ "' object has no attribute 'strip'")),
     []).
Proof.
  intros Hcmd Hnot. unfold run, _on_run_clicked. rewrite Hcmd.
  destruct v; try reflexivity. now contradiction (Hnot s).
Qed.

(** The three ways a click can go. *)
Lemma on_run_clicked_cases :
  (exists e, run (_on_run_clicked os self item_data) = (Raise e, [])) \/
  run (_on_run_clicked os self item_data) = (Ret tt, []) \/
  exists s pre c,
    dict_get item_data "command" (PStr "") = PStr s /\
    all_space s = false /\
    popen_calls pre = [] /\
    expandvars_calls pre = [s] /\
    run (_on_run_clicked os self item_data)
    = (Ret tt, (pre ++ EvPopen c :: spawn_outcome os c)%list).
Proof.
  destruct (dict_get item_data "command" (PStr "")) as [| | |s| |] eqn:Hcmd;
    try (left; eexists;
         apply (on_run_clicked_not_str _ Hcmd); intros s; discriminate).
  destruct (all_space s) eqn:Hblank.
  - right. left. now apply (on_run_clicked_blank os self item_data s).
  - right. right.
    rewrite (on_run_clicked_nonblank os self item_data s Hcmd Hblank).
    set (d := dispatched _ _ _ _).
    exists s.
    exists (EvExpandvars s
            :: EvPrint (LogExec (expandvars os s)
                 (dict_get item_data "terminal" (PBool false))
                 (if str_in "uwsm-app" (expandvars os s) then PBool false
                  else dict_get item_data "use_uwsm" (PBool true)))
            :: fst d)%list.
    exists (snd d).
    assert (Hpre : fst d = [] \/ fst d = [EvPrint LogNoTerminal]).
    { unfold d, dispatched.
      destruct (truthy _); [|now left].
      destruct (_terminal self) as [t|]; [destruct (is_empty t)|]; auto. }
    repeat split; try reflexivity; try assumption;
      destruct Hpre as [-> | ->]; reflexivity.
Qed.

End ClickFacts.

(** X4. When an item has a [command] that is not a string (a number, a
    list, or null as an empty [command:] gives), the click handler raises
    AttributeError. It raises before the [try] block: nothing is expanded,
    logged or spawned, and the exception leaves the handler. *)
Theorem non_string_command_raises (os : OS) (self : App) (item_data : Dict)
    (v : PyVal) :
  dict_get item_data "command" (PStr "") = v ->
  (forall s, v <> PStr s) ->
  exists e,
    run (_on_run_clicked os self item_data) = (Raise e, []) /\
    exn_class e = "AttributeError".
Proof.
  intros Hcmd Hnot. eexists. split.
  - now apply (on_run_clicked_not_str os self item_data v).
  - reflexivity.
Qed.

Lemma non_string_command_raises_witness :
  exists e,
    run (_on_run_clicked Sample.os_foot (Sample.app_of Sample.os_foot)
           [("title", PStr "Broken"); ("command", PNone)])
    = (Raise e, []) /\
    exn_class e = "AttributeError".
Proof.
  apply (non_string_command_raises Sample.os_foot _ _ PNone).
  - reflexivity.
  - intros s. discriminate.
Defined.

(** X5. One click makes at most one [Popen] call, whatever the item, the
    environment and the application state, and it spawns exactly when it
    expanded a command: the number of spawns equals the number of
    [expandvars] calls. *)
Theorem click_spawns_at_most_once (os : OS) (self : App) (item_data : Dict) :
  let tr := snd (run (_on_run_clicked os self item_data)) in
  length (popen_calls tr) <= 1 /\
  length (popen_calls tr) = length (expandvars_calls tr).
Proof.
  cbn zeta.
  destruct (on_run_clicked_cases os self item_data)
    as [[e ->]|[->|(s & pre & c & _ & _ & Hp & He & ->)]];
    cbn [snd]; try (cbn; lia).
  rewrite popen_calls_app, expandvars_calls_app, Hp, He.
  cbn [popen_calls expandvars_calls app length].
  rewrite popen_calls_outcome.
  assert (expandvars_calls (spawn_outcome os c) = []) as ->
      by (unfold spawn_outcome; now destruct (popen os c)).
  cbn. lia.
Qed.

(** X6. The handler prints [No terminal found, running in background.]
    exactly when the item has a non-blank string command, asks for a
    terminal, and the application holds no terminal. *)
Theorem no_terminal_notice (os : OS) (self : App) (item_data : Dict) :
  In (EvPrint LogNoTerminal) (snd (run (_on_run_clicked os self item_data)))
  <->
  (exists s, dict_get item_data "command" (PStr "") = PStr s /\
             all_space s = false) /\
  truthy (dict_get item_data "terminal" (PBool false)) = true /\
  (_terminal self = None \/ _terminal self = Some "").
Proof.
  destruct (dict_get item_data "command" (PStr "")) as [| | |s| |] eqn:Hcmd;
    try (rewrite (on_run_clicked_not_str os self item_data _ Hcmd)
           by (intros s; discriminate);
         split; [intros []|intros [[s [Hs _]] _]; discriminate]).
  destruct (all_space s) eqn:Hblank.
  - rewrite (on_run_clicked_blank os self item_data s Hcmd Hblank).
    split; [intros []|]. intros [[s' [[= <-] Hs']] _]. congruence.
  - rewrite (on_run_clicked_nonblank os self item_data s Hcmd Hblank).
    cbn [snd]. unfold dispatched, spawn_outcome.
    destruct (truthy (dict_get item_data "terminal" (PBool false))).
    + destruct (_terminal self) as [[|c t]|]; cbn [is_empty fst snd app].
      * split; [|intros _; cbn; tauto].
        intros _. split; [now exists s|]. split; [reflexivity|now right].
      * split; [|intros [_ [_ [H|H]]]; discriminate].
        intros [H|[H|H]]; try discriminate.
        cbn in H. destruct H as [H|H]; [discriminate|].
        destruct (popen os _); cbn in H; [destruct H as [H|[]]|destruct H];
          discriminate.
      * split; [|intros _; cbn; tauto].
        intros _. split; [now exists s|]. split; [reflexivity|now left].
    + split; [|intros [_ [H _]]; discriminate].
      cbn [fst snd app]. intros [H|[H|H]]; try discriminate.
      cbn in H. destruct H as [H|H]; [discriminate|].
      destruct (popen os _); cbn in H; [destruct H as [H|[]]|destruct H];
        discriminate.
Qed.

Lemma no_terminal_notice_witness :
  In (EvPrint LogNoTerminal)
     (snd (run (_on_run_clicked Sample.os_bare
                  (Sample.app_of Sample.os_bare) Sample.item_term))).
Proof.
  apply (proj2 (no_terminal_notice Sample.os_bare
                  (Sample.app_of Sample.os_bare) Sample.item_term)).
  split; [exists "htop"; split; reflexivity|].
  split; [reflexivity|left; reflexivity].
Defined.

(** X7. For an item that asks for a terminal and whose expanded command
    already contains [uwsm-app], the handler logs a [use_uwsm] of false and
    still spawns through the launcher: with a terminal the argument list
    starts with [uwsm-app], [--]; with no terminal the command that contains
    the launcher is wrapped once more, as [uwsm-app -- sh -c expanded_cmd]. *)
Theorem terminal_item_ignores_wrap_check (os : OS) (self : App)
    (item_data : Dict) (s : string) :
  dict_get item_data "command" (PStr "") = PStr s ->
  all_space s = false ->
  truthy (dict_get item_data "terminal" (PBool false)) = true ->
  str_in "uwsm-app" (expandvars os s) = true ->
  let cmd := expandvars os s in
  let tr := snd (run (_on_run_clicked os self item_data)) in
  In (EvPrint (LogExec cmd (dict_get item_data "terminal" (PBool false))
                 (PBool false))) tr /\
  (forall t, _terminal self = Some t -> t <> "" ->
     popen_calls tr =
     [{| args := ArgList ("uwsm-app" :: "--"
                          :: build_terminal_cmd t APP_TITLE cmd true);
         shell := false;
         start_new_session := true;
         stdin := DEVNULL; stdout := DEVNULL; stderr := DEVNULL |}]) /\
  (_terminal self = None ->
     popen_calls tr =
     [{| args := ArgList ["uwsm-app"; "--"; "sh"; "-c"; cmd];
         shell := false;
         start_new_session := true;
         stdin := DEVNULL; stdout := DEVNULL; stderr := DEVNULL |}]).
Proof.
  intros Hcmd Hblank Hterm Htoken cmd tr. unfold tr.
  rewrite (on_run_clicked_nonblank os self item_data s Hcmd Hblank).
  cbn [snd]. rewrite Htoken. fold cmd.
  split; [right; left; reflexivity|].
  cbn [popen_calls]. unfold dispatched. rewrite Hterm.
  split.
  - intros t -> Hne.
    destruct t as [|c t]; [now contradiction Hne|].
    cbn [is_empty fst snd app popen_calls]. now rewrite popen_calls_outcome.
  - intros ->. cbn [fst snd app popen_calls]. now rewrite popen_calls_outcome.
Qed.

Lemma terminal_item_ignores_wrap_check_witness :
  let item_data :=
    [("command", PStr "uwsm-app -- btop"); ("terminal", PBool true)] in
  let tr :=
    snd (run (_on_run_clicked Sample.os_bare (Sample.app_of Sample.os_bare)
                item_data)) in
  In (EvPrint (LogExec "uwsm-app -- btop" (PBool true) (PBool false))) tr /\
  (forall t, _terminal (Sample.app_of Sample.os_bare) = Some t -> t <> "" ->
     popen_calls tr =
     [{| args := ArgList ("uwsm-app" :: "--"
                          :: build_terminal_cmd t APP_TITLE
                               "uwsm-app -- btop" true);
         shell := false;
         start_new_session := true;
         stdin := DEVNULL; stdout := DEVNULL; stderr := DEVNULL |}]) /\
  (_terminal (Sample.app_of Sample.os_bare) = None ->
     popen_calls tr =
     [{| args := ArgList ["uwsm-app"; "--"; "sh"; "-c"; "uwsm-app -- btop"];
         shell := false;
         start_new_session := true;
         stdin := DEVNULL; stdout := DEVNULL; stderr := DEVNULL |}]).
Proof.
  apply (terminal_item_ignores_wrap_check Sample.os_bare
           (Sample.app_of Sample.os_bare)
           [("command", PStr "uwsm-app -- btop"); ("terminal", PBool true)]
           "uwsm-app -- btop"); reflexivity.
Defined.

Lemma load_config_truthy (os : OS) (cfg : PyVal) :
  load_config os = Ret cfg -> truthy cfg = true.
Proof.
  unfold load_config.
  destruct (isfile os _); cbn; [|now intros [= <-]].
  destruct (open_r os _) as [f|e]; cbn; [|now intros [= <-]].
  destruct (safe_load os f) as [data|e]; cbn; [|now intros [= <-]].
  destruct (truthy data) eqn:Hd; now intros [= <-].
Qed.

Lemma load_config_truthy_document (os : OS) (f : string) (data : PyVal) :
  isfile os (config_path os) = true ->
  open_r os (config_path os) = Ret f ->
  safe_load os f = Ret data ->
  truthy data = true ->
  load_config os = Ret data.
Proof.
  intros Hfile Hopen Hload Htrue.
  rewrite (load_config_parsed os f data) by assumption.
  now rewrite Htrue.
Qed.

(** X8. [load_config] always returns a value that is truthy: never null,
    never an empty mapping. A parsed document that is truthy is returned as
    it was parsed, whatever its shape: a list or a string at the top of the
    file is returned as the configuration. *)
Theorem load_config_returns_truthy (os : OS) :
  (exists cfg, load_config os = Ret cfg /\ truthy cfg = true) /\
  (forall f data,
     isfile os (config_path os) = true ->
     open_r os (config_path os) = Ret f ->
     safe_load os f = Ret data ->
     truthy data = true ->
     load_config os = Ret data).
Proof.
  split.
  - destruct (load_config_returns os) as [cfg Hcfg].
    exists cfg. split; [exact Hcfg|now apply (load_config_truthy os)].
  - apply load_config_truthy_document.
Qed.

(** A configuration file that holds a list of two strings. *)
Lemma load_config_returns_truthy_witness :
  load_config
    (Sample.os_of [] (Some (Ret (PList [PStr "pages"; PStr "groups"])))
       Sample.never_fails)
  = Ret (PList [PStr "pages"; PStr "groups"]).
Proof.
  apply (proj2 (load_config_returns_truthy _)
           "/opt/dusky/dusky_config.yaml"); reflexivity.
Defined.

(** X9. [do_startup] never raises and does not look at the state it
    replaces. The application it leaves holds the loaded configuration,
    which is truthy, and either no terminal or one of the seven names of
    [TERMINALS], never the empty string. *)
Theorem do_startup_state (os : OS) (self0 : App) :
  exists self,
    do_startup os self0 = Ret self /\
    (forall self1, do_startup os self1 = Ret self) /\
    load_config os = Ret (config self) /\
    truthy (config self) = true /\
    (_terminal self = None \/
     exists t, _terminal self = Some t /\ In t TERMINALS /\ t <> "").
Proof.
  destruct (load_config_returns os) as [cfg Hcfg].
  exists {| config := cfg; _terminal := find_terminal os |}.
  unfold do_startup. rewrite Hcfg. cbn [mbind Res_Monad config _terminal].
  split; [reflexivity|]. split; [reflexivity|]. split; [reflexivity|].
  split; [now apply (load_config_truthy os)|].
  destruct (find_terminal os) as [t|] eqn:Ht; [right|now left].
  exists t. split; [reflexivity|].
  split; [now apply (find_terminal_in_list os)|].
  intros ->. apply find_terminal_nonempty in Ht. discriminate.
Qed.

(* ========================================================================= *)
(** ** Further properties: dependency bootstrap *)
(* ========================================================================= *)

Section Bootstrap.

Variables (os : OS) (host : Host).

(** The three ways the detection of steps 1 and 2 can end. *)
Lemma check_dependencies_run :
  (exists e, run_boot (check_dependencies os host) = (BStop (Raised e), []))
  \/
  (find_spec host "gi" = Ret true /\ find_spec host "yaml" = Ret true /\
   load_toolkit host = None /\
   run_boot (check_dependencies os host) = (BRet tt, []))
  \/
  (exists missing,
     In missing missing_shapes /\
     ~ (find_spec host "gi" = Ret true /\ find_spec host "yaml" = Ret true /\
        load_toolkit host = None) /\
     run_boot (check_dependencies os host)
     = perform_installation os host missing []).
Proof.
  unfold run_boot, check_dependencies, check_python_modules, python_deps,
    check_system_libraries, try_except_classes, of_res, of_outcome, bstop.
  cbn -[perform_installation].
  destruct (find_spec host "gi") as [[|]|e1];
    cbn -[perform_installation]; [| |left; now exists e1];
    (destruct (find_spec host "yaml") as [[|]|e2];
     cbn -[perform_installation]; [| |left; now exists e2]).
  - destruct (load_toolkit host) as [e|]; cbn -[perform_installation].
    + destruct (isinstance host e "ValueError" ||
                (isinstance host e "ImportError" || false));
        cbn -[perform_installation].
      * right. right. exists ["gtk4"; "libadwaita"].
        split; [cbn; tauto|]. split; [|reflexivity].
        intros (_ & _ & H). discriminate.
      * left. now exists e.
    + right. left. auto.
  - destruct (load_toolkit host) as [e|]; cbn -[perform_installation].
    + destruct (isinstance host e "ValueError" ||
                (isinstance host e "ImportError" || false));
        cbn -[perform_installation].
      * right. right. exists ["python-yaml"; "gtk4"; "libadwaita"].
        split; [cbn; tauto|]. split; [|reflexivity].
        intros (_ & H & _). discriminate.
      * left. now exists e.
    + right. right. exists ["python-yaml"].
      split; [cbn; tauto|]. split; [|reflexivity].
      intros (_ & H & _). discriminate.
  - right. right. exists ["python-gobject"].
    split; [cbn; tauto|]. split; [|reflexivity].
    intros (H & _). discriminate.
  - right. right. exists ["python-gobject"; "python-yaml"].
    split; [cbn; tauto|]. split; [|reflexivity].
    intros (H & _). discriminate.
Qed.

(** What step 3 does, by the outcome of the installer and of the restart. *)
Lemma perform_installation_run (missing : list string) :
  perform_installation os host missing [] =
  match find_terminal os with
  | None =>
      (BStop (Exited 1),
       [missing_line missing;
        BPrint "[ERROR] No terminal found. Install manually:";
        BPrint ("sudo pacman -S --needed " ++ String.concat " " missing)])
  | Some t =>
      let cmd := installer_cmd t missing in
      let path := sys_executable host in
      let argv := path :: sys_argv host in
      let pre :=
        [missing_line missing;
         BPrint ("[Dusky Control Center] Launching " ++ t
                 ++ " for installation...");
         BCheckCall cmd] in
      let failed := BPrint "[ERROR] Installation failed." in
      match check_call host cmd with
      | Some e =>
          if install_caught host e
          then (BStop (Exited 1), pre ++ [failed])%list
          else (BStop (Raised e), pre)
      | None =>
          let pre2 :=
            (pre ++ [BPrint "[Dusky Control Center] Restarting...";
                     BExecv path argv])%list in
          match execv host path argv with
          | None => (BStop (Replaced path argv), pre2)
          | Some e =>
              if install_caught host e
              then (BStop (Exited 1), pre2 ++ [failed])%list
              else (BStop (Raised e), pre2)
          end
      end
  end.
Proof.
  unfold perform_installation, try_except_classes, subprocess_check_call,
    os_execv, of_outcome, bprint, bemit, sys_exit, bstop, installer_cmd,
    missing_line, pacman_cmd, install_caught.
  destruct (find_terminal os) as [t|]; [|reflexivity].
  cbn -[build_terminal_cmd existsb String.concat].
  destruct (check_call host _) as [e|];
    cbn -[build_terminal_cmd existsb String.concat].
  - now destruct (existsb _ _).
  - destruct (execv host _ _) as [e|];
      cbn -[build_terminal_cmd existsb String.concat]; [|reflexivity].
    now destruct (existsb _ _).
Qed.

(** Step 3 does not return. *)
Lemma perform_installation_stops (missing : list string) :
  exists s tr, perform_installation os host missing [] = (BStop s, tr) /\
               hd_error tr = Some (missing_line missing).
Proof.
  rewrite perform_installation_run.
  destruct (find_terminal os) as [t|]; [|eauto].
  cbn zeta.
  destruct (check_call host _) as [e|].
  - destruct (install_caught host e); eauto.
  - destruct (execv host _ _) as [e|]; [destruct (install_caught host e)|];
      eauto.
Qed.

End Bootstrap.

(** X10. [check_dependencies] returns exactly when the two Python modules
    are found and the toolkit loads; it then has printed nothing and run
    nothing. In every other case it does not return: it raises, exits or
    replaces the process, so the main application is reached only with the
    dependencies present. *)
Theorem check_dependencies_gate (os : OS) (host : Host) :
  (fst (run_boot (check_dependencies os host)) = BRet tt <->
   find_spec host "gi" = Ret true /\ find_spec host "yaml" = Ret true /\
   load_toolkit host = None) /\
  (fst (run_boot (check_dependencies os host)) = BRet tt ->
   snd (run_boot (check_dependencies os host)) = []).
Proof.
  destruct (check_dependencies_run os host)
    as [[e He]|[(H1 & H2 & H3 & Hrun)|(missing & _ & Hnot & Hrun)]];
    rewrite ?He, ?Hrun; cbn [fst snd].
  - split; [|discriminate]. split; [discriminate|].
    intros (H1 & H2 & H3). revert He.
    unfold run_boot, check_dependencies, check_python_modules, python_deps,
      check_system_libraries.
    rewrite H1. cbn. rewrite H2. cbn.
    unfold try_except_classes. rewrite H3. cbn. discriminate.
  - split; [|reflexivity]. split; auto.
  - destruct (perform_installation_stops os host missing)
      as (s & tr & -> & _). cbn [fst snd].
    split; [|discriminate]. split; [discriminate|]. intros H.
    now contradiction Hnot.
Qed.

Lemma check_dependencies_gate_witness :
  fst (run_boot (check_dependencies Sample.os_bare SampleBoot.host_ready))
  = BRet tt.
Proof.
  apply (proj1 (check_dependencies_gate Sample.os_bare
                  SampleBoot.host_ready)).
  repeat split.
Defined.

(** X11. When [check_dependencies] prints anything, its first line reports
    one of five lists of packages: python-yaml; python-gobject; both;
    gtk4 and libadwaita; python-yaml with gtk4 and libadwaita. So no package
    is listed twice, gtk4 and libadwaita come together, and they are never
    reported with python-gobject: the system libraries are probed only when
    the bindings are found. *)
Theorem check_dependencies_reports (os : OS) (host : Host) :
  let tr := snd (run_boot (check_dependencies os host)) in
  tr = [] \/
  exists missing,
    hd_error tr = Some (missing_line missing) /\
    In missing missing_shapes /\
    NoDup missing /\
    (In "gtk4" missing <-> In "libadwaita" missing) /\
    ~ (In "python-gobject" missing /\ In "gtk4" missing).
Proof.
  cbn zeta.
  destruct (check_dependencies_run os host)
    as [[e ->]|[(_ & _ & _ & ->)|(missing & Hin & _ & ->)]];
    [now left|now left|right].
  destruct (perform_installation_stops os host missing)
    as (s & tr & -> & Hhd). cbn [snd].
  exists missing. split; [exact Hhd|]. split; [exact Hin|].
  cbn in Hin.
  repeat (destruct Hin as [<-|Hin];
          [split; [repeat constructor; cbn; intuition discriminate|];
           split; cbn; intuition discriminate|]).
  destruct Hin.
Qed.



(** A run that printed something went through step 3 with one of the five
    lists of packages. *)
Lemma check_dependencies_installs (os : OS) (host : Host) :
  snd (run_boot (check_dependencies os host)) <> [] ->
  exists missing,
    In missing missing_shapes /\
    run_boot (check_dependencies os host)
    = perform_installation os host missing [].
Proof.
  intros Hprinted.
  destruct (check_dependencies_run os host)
    as [[e He]|[(_ & _ & _ & He)|(missing & Hin & _ & He)]].
  - rewrite He in Hprinted. now contradiction Hprinted.
  - rewrite He in Hprinted. now contradiction Hprinted.
  - now exists missing.
Qed.

(** X13. When packages are missing and the terminal [t] was resolved,
    [check_dependencies] runs exactly one command through [check_call]:
    [build_terminal_cmd] for [t], the title [Dusky Control Center
    Installer] and [sudo pacman -S --needed] followed by the missing
    packages separated by spaces, with [wait]. The command starts with the
    terminal itself (it is not wrapped in the session launcher) and ends
    with [sh -c] and the pacman command followed by the wait suffix. *)
Theorem check_dependencies_installer_cmd (os : OS) (host : Host)
    (t : string) :
  find_terminal os = Some t ->
  snd (run_boot (check_dependencies os host)) <> [] ->
  exists missing,
    In missing missing_shapes /\
    hd_error (snd (run_boot (check_dependencies os host)))
      = Some (missing_line missing) /\
    check_calls (snd (run_boot (check_dependencies os host)))
      = [build_terminal_cmd t "Dusky Control Center Installer"
           ("sudo pacman -S --needed " ++ String.concat " " missing) true] /\
    hd_error (installer_cmd t missing) = Some t /\
    lastn 3 (installer_cmd t missing)
      = ["sh"; "-c";
         "sudo pacman -S --needed " ++ String.concat " " missing
         ++ WAIT_SUFFIX].
Proof.
  intros Hterm Hprinted.
  destruct (check_dependencies_installs os host Hprinted)
    as (missing & Hin & ->).
  exists missing. split; [exact Hin|].
  rewrite perform_installation_run, Hterm. cbn zeta.
  split; [|split; [|split]].
  - destruct (check_call host _) as [e|];
      [destruct (install_caught host e)|
       destruct (execv host _ _) as [e|];
       [destruct (install_caught host e)|]]; reflexivity.
  - destruct (check_call host _) as [e|];
      [destruct (install_caught host e)|
       destruct (execv host _ _) as [e|];
       [destruct (install_caught host e)|]]; reflexivity.
  - apply build_terminal_cmd_head.
  - unfold installer_cmd. rewrite build_terminal_cmd_lastn. reflexivity.
Qed.

Lemma check_dependencies_installer_cmd_witness :
  exists missing,
    In missing missing_shapes /\
    hd_error (snd (run_boot (check_dependencies Sample.os_foot
                               SampleBoot.host_fresh)))
      = Some (missing_line missing) /\
    check_calls (snd (run_boot (check_dependencies Sample.os_foot
                                  SampleBoot.host_fresh)))
      = [build_terminal_cmd "foot" "Dusky Control Center Installer"
           ("sudo pacman -S --needed " ++ String.concat " " missing) true] /\
    hd_error (installer_cmd "foot" missing) = Some "foot" /\
    lastn 3 (installer_cmd "foot" missing)
      = ["sh"; "-c";
         "sudo pacman -S --needed " ++ String.concat " " missing
         ++ WAIT_SUFFIX].
Proof.
  apply (check_dependencies_installer_cmd Sample.os_foot
           SampleBoot.host_fresh "foot").
  - reflexivity.
  - discriminate.
Defined.

(** X14. When packages are missing, a terminal was resolved, the installer
    exits with status 0 and [execv] succeeds, [check_dependencies] replaces
    the process by [sys.executable] run on [sys.executable] followed by
    [sys.argv]. It does so after the installer ran, and once. *)
Theorem check_dependencies_restarts (os : OS) (host : Host) (t : string) :
  find_terminal os = Some t ->
  snd (run_boot (check_dependencies os host)) <> [] ->
  (forall cmd, check_call host cmd = None) ->
  (forall path argv, execv host path argv = None) ->
  let path := sys_executable host in
  let argv := path :: sys_argv host in
  exists missing,
    In missing missing_shapes /\
    run_boot (check_dependencies os host)
    = (BStop (Replaced path argv),
       [missing_line missing;
        BPrint ("[Dusky Control Center] Launching " ++ t
                ++ " for installation...");
        BCheckCall (installer_cmd t missing);
        BPrint "[Dusky Control Center] Restarting...";
        BExecv path argv]).
Proof.
  intros Hterm Hprinted Hinstall Hexec path argv.
  destruct (check_dependencies_installs os host Hprinted)
    as (missing & Hin & ->).
  exists missing. split; [exact Hin|].
  rewrite perform_installation_run, Hterm. cbn zeta.
  now rewrite Hinstall, Hexec.
Qed.

Lemma check_dependencies_restarts_witness :
  exists missing,
    In missing missing_shapes /\
    run_boot (check_dependencies Sample.os_foot SampleBoot.host_fresh)
    = (BStop (Replaced "/usr/bin/python3"
                ["/usr/bin/python3"; "dusky_control_center.py"]),
       [missing_line missing;
        BPrint ("[Dusky Control Center] Launching " ++ "foot"
                ++ " for installation...");
        BCheckCall (installer_cmd "foot" missing);
        BPrint "[Dusky Control Center] Restarting...";
        BExecv "/usr/bin/python3"
          ["/usr/bin/python3"; "dusky_control_center.py"]]).
Proof.
  apply (check_dependencies_restarts Sample.os_foot SampleBoot.host_fresh
           "foot"); try reflexivity.
  discriminate.
Defined.

(** X15. When packages are missing, a terminal was resolved and the
    installer raises [e], [check_dependencies] never calls [execv]. If [e]
    is a CalledProcessError or a FileNotFoundError it prints
    [[ERROR] Installation failed.] last and exits with status 1; any other
    exception, such as a PermissionError, is not caught and leaves
    [check_dependencies]. *)
Theorem check_dependencies_install_fails (os : OS) (host : Host)
    (t : string) (e : Exn) :
  find_terminal os = Some t ->
  snd (run_boot (check_dependencies os host)) <> [] ->
  (forall cmd, check_call host cmd = Some e) ->
  let r := run_boot (check_dependencies os host) in
  execv_calls (snd r) = [] /\
  (isinstance host e "CalledProcessError" = true \/
   isinstance host e "FileNotFoundError" = true ->
   fst r = BStop (Exited 1) /\
   last (snd r) (BPrint "") = BPrint "[ERROR] Installation failed.") /\
  (isinstance host e "CalledProcessError" = false ->
   isinstance host e "FileNotFoundError" = false ->
   fst r = BStop (Raised e) /\
   ~ In (BPrint "[ERROR] Installation failed.") (snd r)).
Proof.
  intros Hterm Hprinted Hinstall. cbn zeta.
  destruct (check_dependencies_installs os host Hprinted)
    as (missing & Hin & ->).
  rewrite perform_installation_run, Hterm. cbn zeta.
  rewrite Hinstall. unfold install_caught. cbn [existsb].
  split; [now destruct (_ || _)|]. split.
  - intros Hcaught.
    assert ((isinstance host e "CalledProcessError"
             || (isinstance host e "FileNotFoundError" || false)) = true)
      as -> by (destruct Hcaught as [-> | ->];
                  [reflexivity|now rewrite !orb_true_r]).
    split; reflexivity.
  - intros -> ->. cbn [orb fst snd]. split; [reflexivity|].
    intros [H|[H|[H|[]]]]; discriminate.
Qed.

Lemma check_dependencies_install_fails_witness :
  fst (run_boot (check_dependencies Sample.os_foot SampleBoot.host_declined))
    = BStop (Exited 1) /\
  fst (run_boot (check_dependencies Sample.os_foot SampleBoot.host_denied))
    = BStop (Raised (mkExn "PermissionError" "Permission denied")).
Proof.
  split.
  - apply (proj1 (proj2 (check_dependencies_install_fails
             Sample.os_foot SampleBoot.host_declined "foot"
             (mkExn "CalledProcessError" "returned non-zero exit status 1")
             eq_refl ltac:(discriminate) (fun _ => eq_refl)))).
    left. reflexivity.
  - apply (proj2 (proj2 (check_dependencies_install_fails
             Sample.os_foot SampleBoot.host_denied "foot"
             (mkExn "PermissionError" "Permission denied")
             eq_refl ltac:(discriminate) (fun _ => eq_refl))));
      reflexivity.
Defined.

(* ========================================================================= *)
(** ** Further properties: the window and its rows *)
(* ========================================================================= *)

Section Builder.

Variable tk : Toolkit.

Lemma add_each_Forall2 {A} (build : PyVal -> Res A) (xs : list PyVal)
    (ys : list A) :
  add_each build xs = Ret ys ->
  Forall2 (fun x y => build x = Ret y) xs ys.
Proof.
  revert ys. induction xs as [|x xs IH]; intros ys; cbn.
  - intros [= <-]. constructor.
  - destruct (build x) as [y|e] eqn:Hx; [|discriminate].
    destruct (add_each build xs) as [ys'|e]; [|discriminate].
    intros [= <-]. constructor; auto.
Qed.

Lemma py_get_not_dict (v : PyVal) (key : string) (default : PyVal) :
  (forall d, v <> PDict d) ->
  py_get v key default
  = Raise (mkExn "AttributeError"
             ("'" ++ type_name v ++ "' object has no attribute 'get'")).
Proof.
  intros Hnot. destruct v; try reflexivity. now contradiction (Hnot l).
Qed.

(** What a built row holds. *)
Lemma build_row_ok (data : PyVal) (row : ActionRow) :
  _build_row tk data = Ret row ->
  exists d,
    data = PDict d /\
    markup_escape_text tk (dict_get d "title" (PStr "Unknown"))
      = Ret (row_title row) /\
    markup_escape_text tk (dict_get d "description" (PStr ""))
      = Ret (row_subtitle row) /\
    row_prefix_icon row = dict_get d "icon" (PStr "text-x-generic-symbolic") /\
    row_suffix row
      = {| btn_label := "Run"; btn_css_classes := ["pill"];
           btn_valign := ALIGN_CENTER; btn_clicked_data := PDict d |} /\
    row_activatable_widget row = row_suffix row.
Proof.
  unfold _build_row, gtk_call.
  destruct data as [| | | | |d]; try discriminate.
  cbn [py_get mbind Res_Monad].
  destruct (markup_escape_text tk (dict_get d "title" _)) as [t|e] eqn:Ht;
    [|discriminate].
  destruct (gtk tk (RowSetTitle t)); [discriminate|].
  destruct (markup_escape_text tk (dict_get d "description" _)) as [s|e]
    eqn:Hs; [|discriminate].
  destruct (gtk tk (RowSetSubtitle s)); [discriminate|].
  destruct (gtk tk (ImageNewFromIconName _)); [discriminate|].
  intros [= <-]. exists d. cbn. repeat split; assumption.
Qed.

Section Obliging.

Variable esc : string -> string.
Hypothesis Hob : obliging tk esc.

Lemma gtk_call_obliging (c : GtkCall) : gtk_call tk c = Ret tt.
Proof. unfold gtk_call. now rewrite (proj2 Hob). Qed.

Lemma build_row_obliging (d : Dict) (t s : string) :
  dict_get d "title" (PStr "Unknown") = PStr t ->
  dict_get d "description" (PStr "") = PStr s ->
  _build_row tk (PDict d)
  = Ret (let btn := {| btn_label := "Run"; btn_css_classes := ["pill"];
                       btn_valign := ALIGN_CENTER;
                       btn_clicked_data := PDict d |} in
         {| row_title := esc t;
            row_subtitle := esc s;
            row_prefix_icon :=
              dict_get d "icon" (PStr "text-x-generic-symbolic");
            row_suffix := btn;
            row_activatable_widget := btn |}).
Proof.
  intros Ht Hs. unfold _build_row. cbn [py_get mbind Res_Monad].
  rewrite Ht, Hs, !(proj1 Hob), !gtk_call_obliging. reflexivity.
Qed.

Lemma build_group_obliging (d : Dict) (t : string) (items : list PyVal)
    (rows : list ActionRow) :
  dict_get d "title" (PStr "") = PStr t ->
  py_iter (dict_get d "items" (PList [])) = Ret items ->
  add_each (_build_row tk) items = Ret rows ->
  _build_group tk (PDict d)
  = Ret {| group_title := esc t; group_rows := rows |}.
Proof.
  intros Ht Hitems Hrows. unfold _build_group. cbn [py_get mbind Res_Monad].
  rewrite Ht, (proj1 Hob), gtk_call_obliging, Hitems, Hrows. reflexivity.
Qed.

Lemma build_page_obliging (d : Dict) (gs : list PyVal)
    (groups : list PreferencesGroup) :
  py_iter (dict_get d "groups" (PList [])) = Ret gs ->
  add_each (_build_group tk) gs = Ret groups ->
  _build_page tk (PDict d)
  = Ret {| page_title := dict_get d "name" (PStr "Untitled");
           page_icon_name := dict_get d "icon" (PStr "system-help-symbolic");
           page_groups := groups |}.
Proof.
  intros Hgs Hgroups. unfold _build_page. cbn [py_get mbind Res_Monad].
  rewrite !gtk_call_obliging, Hgs, Hgroups. reflexivity.
Qed.

Lemma do_activate_obliging (self : App) (d w : Dict) (ps : list PyVal)
    (pages : list PreferencesPage) :
  config self = PDict d ->
  dict_get d "window" (PDict []) = PDict w ->
  py_iter (dict_get d "pages" (PList [])) = Ret ps ->
  add_each (_build_page tk) ps = Ret pages ->
  do_activate tk self
  = Ret {| win_title := dict_get w "title" (PStr APP_TITLE);
           win_default_size :=
             (dict_get w "width" (PInt 950), dict_get w "height" (PInt 650));
           win_pages := pages;
           win_presented := true |}.
Proof.
  intros Hcfg Hw Hps Hpages. unfold do_activate. rewrite Hcfg.
  cbn [py_get mbind Res_Monad]. rewrite Hw. cbn [py_get mbind Res_Monad].
  rewrite !gtk_call_obliging, Hps, Hpages. reflexivity.
Qed.

End Obliging.

End Builder.

(** X16. When [_build_group] returns a group, its data is a mapping and the
    group has one row per entry of [items], in order. The button of each
    row is bound to the whole mapping of its own item, it is the row's
    activatable widget, and a click on it runs [_on_run_clicked] on that
    item. *)
Theorem build_group_rows (tk : Toolkit) (data : PyVal)
    (g : PreferencesGroup) :
  _build_group tk data = Ret g ->
  exists d items,
    data = PDict d /\
    py_iter (dict_get d "items" (PList [])) = Ret items /\
    length (group_rows g) = length items /\
    Forall2
      (fun item row =>
         btn_clicked_data (row_suffix row) = item /\
         row_activatable_widget row = row_suffix row /\
         exists item_data,
           item = PDict item_data /\
           forall os self,
             clicked os self (row_suffix row)
             = _on_run_clicked os self item_data)
      items (group_rows g).
Proof.
  unfold _build_group.
  destruct data as [| | | | |d]; try discriminate.
  cbn [py_get mbind Res_Monad].
  destruct (markup_escape_text tk _) as [t|e]; [|discriminate].
  destruct (gtk_call tk _); [|discriminate].
  destruct (py_iter _) as [items|e] eqn:Hitems; [|discriminate].
  destruct (add_each (_build_row tk) items) as [rows|e] eqn:Hrows;
    [|discriminate].
  intros [= <-]. cbn [group_rows].
  apply add_each_Forall2 in Hrows.
  exists d, items. split; [reflexivity|]. split; [exact Hitems|].
  split; [symmetry; now apply (Forall2_length Hrows)|].
  eapply Forall2_impl; [|exact Hrows].
  intros item row Hrow. cbn beta in Hrow.
  apply build_row_ok in Hrow
    as (di & -> & _ & _ & _ & Hbtn & Hact).
  rewrite Hact, Hbtn. cbn. split; [reflexivity|]. split; [reflexivity|].
  exists di. split; reflexivity.
Qed.

(** The sample group: two items, two rows; the second button carries the
    terminal item with its flags. *)
Lemma build_group_rows_witness :
  exists g d items,
    _build_group SampleBoot.toolkit SampleBoot.group_tools = Ret g /\
    SampleBoot.group_tools = PDict d /\
    py_iter (dict_get d "items" (PList [])) = Ret items /\
    length (group_rows g) = length items /\
    Forall2
      (fun item row =>
         btn_clicked_data (row_suffix row) = item /\
         row_activatable_widget row = row_suffix row /\
         exists item_data,
           item = PDict item_data /\
           forall os self,
             clicked os self (row_suffix row)
             = _on_run_clicked os self item_data)
      items (group_rows g).
Proof.
  eexists.
  destruct (build_group_rows SampleBoot.toolkit SampleBoot.group_tools _
              eq_refl) as (d & items & H).
  exists d, items. split; [reflexivity|exact H].
Defined.

(** X17. When [do_activate] returns a window, the configuration is a
    mapping whose [window] entry (an empty mapping when absent) is a
    mapping. The window is presented; its title is the [title] of that
    entry or the application title, its size the [width] and [height] or
    950 and 650. It has one page per entry of [pages], in order; each such
    entry is a mapping, and the page carries its [name] (Untitled when
    absent) and [icon] as configured, not escaped. *)
Theorem do_activate_window (tk : Toolkit) (self : App)
    (win : PreferencesWindow) :
  do_activate tk self = Ret win ->
  exists d w ps,
    config self = PDict d /\
    dict_get d "window" (PDict []) = PDict w /\
    win_title win = dict_get w "title" (PStr "Dusky Control Center") /\
    win_default_size win
      = (dict_get w "width" (PInt 950), dict_get w "height" (PInt 650)) /\
    win_presented win = true /\
    py_iter (dict_get d "pages" (PList [])) = Ret ps /\
    Forall2
      (fun p page =>
         exists pd,
           p = PDict pd /\
           page_title page = dict_get pd "name" (PStr "Untitled") /\
           page_icon_name page
             = dict_get pd "icon" (PStr "system-help-symbolic"))
      ps (win_pages win).
Proof.
  unfold do_activate.
  destruct (config self) as [| | | | |d]; try discriminate.
  cbn [py_get mbind Res_Monad].
  destruct (dict_get d "window" (PDict [])) as [| | | | |w] eqn:Hw;
    try discriminate.
  cbn [py_get mbind Res_Monad].
  destruct (gtk_call tk (WindowSetTitle _)); [|discriminate].
  destruct (gtk_call tk (WindowSetDefaultSize _ _)); [|discriminate].
  destruct (py_iter _) as [ps|e] eqn:Hps; [|discriminate].
  destruct (add_each (_build_page tk) ps) as [pages|e] eqn:Hpages;
    [|discriminate].
  intros [= <-]. cbn.
  exists d, w, ps. repeat (split; [reflexivity || assumption|]).
  apply add_each_Forall2 in Hpages.
  eapply Forall2_impl; [|exact Hpages].
  clear Hps Hpages. intros p page. cbn beta. unfold _build_page.
  destruct p as [| | | | |pd]; try discriminate.
  cbn [py_get mbind Res_Monad].
  destruct (gtk_call tk (PageSetTitle _)); [|discriminate].
  destruct (gtk_call tk (PageSetIconName _)); [|discriminate].
  destruct (py_iter _) as [gs|e]; [|discriminate].
  destruct (add_each (_build_group tk) gs) as [groups|e]; [|discriminate].
  intros [= <-]. exists pd. repeat split.
Qed.

(** A configuration with a window title, a width and two pages. *)
Lemma do_activate_window_witness :
  let self :=
    {| config :=
         PDict [("window", PDict [("title", PStr "Dusky <beta>");
                                  ("width", PInt 800)]);
                ("pages", PList [PDict [("name", PStr "Apps & Tools")];
                                 PDict [("icon", PStr "go-home")]])];
       _terminal := None |} in
  exists win d w ps,
    do_activate SampleBoot.toolkit self = Ret win /\
    config self = PDict d /\
    dict_get d "window" (PDict []) = PDict w /\
    win_title win = dict_get w "title" (PStr "Dusky Control Center") /\
    win_default_size win
      = (dict_get w "width" (PInt 950), dict_get w "height" (PInt 650)) /\
    win_presented win = true /\
    py_iter (dict_get d "pages" (PList [])) = Ret ps /\
    Forall2
      (fun p page =>
         exists pd,
           p = PDict pd /\
           page_title page = dict_get pd "name" (PStr "Untitled") /\
           page_icon_name page
             = dict_get pd "icon" (PStr "system-help-symbolic"))
      ps (win_pages win).
Proof.
  cbn zeta. eexists.
  match goal with
  | |- exists d w ps, do_activate _ ?self = _ /\ _ =>
      destruct (do_activate_window SampleBoot.toolkit self _ eq_refl)
        as (d & w & ps & H)
  end.
  exists d, w, ps. split; [reflexivity|exact H].
Defined.

(** X18. When the configuration file parses to a truthy document that is
    not a mapping (a list, a string, a number), [do_startup] keeps that
    document as the configuration and [do_activate] raises AttributeError
    on its first [get]: no window is built, whatever the toolkit. *)
Theorem non_mapping_document_raises (os : OS) (tk : Toolkit) (self0 : App)
    (f : string) (data : PyVal) :
  isfile os (config_path os) = true ->
  open_r os (config_path os) = Ret f ->
  safe_load os f = Ret data ->
  truthy data = true ->
  (forall d, data <> PDict d) ->
  exists self e,
    do_startup os self0 = Ret self /\
    config self = data /\
    do_activate tk self = Raise e /\
    exn_class e = "AttributeError".
Proof.
  intros Hfile Hopen Hload Htrue Hnot.
  exists {| config := data; _terminal := find_terminal os |}.
  eexists. split; [|split; [reflexivity|split]].
  - unfold do_startup.
    rewrite (load_config_truthy_document os f data) by assumption.
    reflexivity.
  - unfold do_activate. cbn [config].
    rewrite (py_get_not_dict data "window" (PDict []) Hnot). reflexivity.
  - reflexivity.
Qed.

Lemma non_mapping_document_raises_witness :
  exists self e,
    do_startup
      (Sample.os_of [] (Some (Ret (PList [PStr "pages"; PStr "groups"])))
         Sample.never_fails) App_init = Ret self /\
    config self = PList [PStr "pages"; PStr "groups"] /\
    do_activate SampleBoot.toolkit self = Raise e /\
    exn_class e = "AttributeError".
Proof.
  apply (non_mapping_document_raises _ SampleBoot.toolkit App_init
           "/opt/dusky/dusky_config.yaml"); try reflexivity.
  intros d. discriminate.
Defined.

(** X19. With a toolkit that escapes strings with [esc] and takes every
    call, missing keys fall back to defaults. An item without [title],
    [description] and [icon] gives a row titled [esc "Unknown"] with the
    subtitle [esc ""] and the icon [text-x-generic-symbolic]. A group
    without [title] and [items] is titled [esc ""] and has no row. A page
    without [name], [icon] and [groups] is titled [Untitled], has the icon
    [system-help-symbolic] and no group. A configuration without [window]
    and [pages] gives a window titled [Dusky Control Center] of size 950 by
    650 with no page. *)
Theorem missing_keys_defaults (tk : Toolkit) (esc : string -> string)
    (d : Dict) :
  obliging tk esc ->
  (dict_has d "title" = false -> dict_has d "description" = false ->
   dict_has d "icon" = false ->
   exists row,
     _build_row tk (PDict d) = Ret row /\
     row_title row = esc "Unknown" /\
     row_subtitle row = esc "" /\
     row_prefix_icon row = PStr "text-x-generic-symbolic" /\
     btn_clicked_data (row_suffix row) = PDict d) /\
  (dict_has d "title" = false -> dict_has d "items" = false ->
   _build_group tk (PDict d)
   = Ret {| group_title := esc ""; group_rows := [] |}) /\
  (dict_has d "name" = false -> dict_has d "icon" = false ->
   dict_has d "groups" = false ->
   _build_page tk (PDict d)
   = Ret {| page_title := PStr "Untitled";
            page_icon_name := PStr "system-help-symbolic";
            page_groups := [] |}) /\
  (dict_has d "window" = false -> dict_has d "pages" = false ->
   forall t,
     do_activate tk {| config := PDict d; _terminal := t |}
     = Ret {| win_title := PStr "Dusky Control Center";
              win_default_size := (PInt 950, PInt 650);
              win_pages := [];
              win_presented := true |}).
Proof.
  intros Hob. split; [|split; [|split]].
  - intros Ht Hd Hi. eexists. split.
    + apply (build_row_obliging tk esc Hob d "Unknown" "");
        now apply dict_get_absent.
    + cbn. rewrite (dict_get_absent d "icon" _ Hi). repeat split.
  - intros Ht Hi.
    apply (build_group_obliging tk esc Hob d "" []).
    + now apply dict_get_absent.
    + now rewrite (dict_get_absent d "items" _ Hi).
    + reflexivity.
  - intros Hn Hi Hg.
    rewrite (build_page_obliging tk esc Hob d [] []).
    + now rewrite (dict_get_absent d "name" _ Hn),
        (dict_get_absent d "icon" _ Hi).
    + now rewrite (dict_get_absent d "groups" _ Hg).
    + reflexivity.
  - intros Hw Hp t.
    rewrite (do_activate_obliging tk esc Hob _ d [] [] []).
    + reflexivity.
    + reflexivity.
    + now apply dict_get_absent.
    + now rewrite (dict_get_absent d "pages" _ Hp).
    + reflexivity.
Qed.

(** The application before [do_startup], whose configuration is the empty
    mapping, and a toolkit that escapes nothing. *)
Lemma missing_keys_defaults_witness :
  let tk := {| markup_escape_text := fun v =>
                 match v with
                 | PStr s => Ret s
                 | _ => Raise (SampleBoot.type_error v)
                 end;
               gtk := fun _ => None |} in
  do_activate tk App_init
  = Ret {| win_title := PStr "Dusky Control Center";
           win_default_size := (PInt 950, PInt 650);
           win_pages := [];
           win_presented := true |}.
Proof.
  cbn zeta.
  refine (proj2 (proj2 (proj2
            (missing_keys_defaults _ (fun s => s) [] _))) eq_refl eq_refl None).
  split; reflexivity.
Defined.

(** X20. Whenever [load_config] fell back to the synthetic configuration
    for a message, the window built after [do_startup] (by a toolkit that
    escapes strings with [esc] and takes every call) has the default title
    and size and exactly one page, named Error, with one group titled
    [esc "Error"] holding one row: its title is [esc "Config Error"], its
    subtitle the escaped message. A click on the row's [Run] button does
    nothing: nothing is expanded, logged or spawned. *)
Theorem error_page_is_inert (os : OS) (tk : Toolkit)
    (esc : string -> string) (self0 : App) (msg : string) :
  obliging tk esc ->
  load_config os = Ret (_error_config msg) ->
  exists self row,
    do_startup os self0 = Ret self /\
    do_activate tk self
    = Ret {| win_title := PStr "Dusky Control Center";
             win_default_size := (PInt 950, PInt 650);
             win_pages :=
               [{| page_title := PStr "Error";
                   page_icon_name := PStr "system-help-symbolic";
                   page_groups :=
                     [{| group_title := esc "Error";
                         group_rows := [row] |}] |}];
             win_presented := true |} /\
    row_title row = esc "Config Error" /\
    row_subtitle row = esc msg /\
    run (clicked os self (row_suffix row)) = (Ret tt, []).
Proof.
  intros Hob Hload.
  set (item := [("title", PStr "Config Error"); ("description", PStr msg)]).
  set (btn := {| btn_label := "Run"; btn_css_classes := ["pill"];
                 btn_valign := ALIGN_CENTER;
                 btn_clicked_data := PDict item |}).
  set (row := {| row_title := esc "Config Error";
                 row_subtitle := esc msg;
                 row_prefix_icon := PStr "text-x-generic-symbolic";
                 row_suffix := btn;
                 row_activatable_widget := btn |}).
  assert (Hrow : _build_row tk (PDict item) = Ret row)
    by (apply (build_row_obliging tk esc Hob); reflexivity).
  set (group := [("title", PStr "Error"); ("items", PList [PDict item])]).
  assert (Hgroup : _build_group tk (PDict group)
                   = Ret {| group_title := esc "Error";
                            group_rows := [row] |}).
  { apply (build_group_obliging tk esc Hob group "Error" [PDict item]);
      try reflexivity.
    cbn [add_each mbind Res_Monad]. now rewrite Hrow. }
  set (page := [("name", PStr "Error"); ("groups", PList [PDict group])]).
  assert (Hpage : _build_page tk (PDict page)
                  = Ret {| page_title := PStr "Error";
                           page_icon_name := PStr "system-help-symbolic";
                           page_groups :=
                             [{| group_title := esc "Error";
                                 group_rows := [row] |}] |}).
  { apply (build_page_obliging tk esc Hob page [PDict group]);
      try reflexivity.
    cbn [add_each mbind Res_Monad]. now rewrite Hgroup. }
  exists {| config := _error_config msg; _terminal := find_terminal os |}.
  exists row. split; [|split; [|split; [|split]]].
  - unfold do_startup. now rewrite Hload.
  - apply (do_activate_obliging tk esc Hob _
             [("pages", PList [PDict page])] [] [PDict page]);
      try reflexivity.
    cbn [add_each mbind Res_Monad]. now rewrite Hpage.
  - reflexivity.
  - reflexivity.
  - cbn [row row_suffix btn btn_clicked_data clicked].
    apply (on_run_clicked_blank os _ _ ""); reflexivity.
Qed.

(** The configuration file is missing: the one row shows the message and
    its button is inert. *)
Lemma error_page_is_inert_witness :
  exists self row,
    do_startup Sample.os_foot App_init = Ret self /\
    do_activate SampleBoot.toolkit' self
    = Ret {| win_title := PStr "Dusky Control Center";
             win_default_size := (PInt 950, PInt 650);
             win_pages :=
               [{| page_title := PStr "Error";
                   page_icon_name := PStr "system-help-symbolic";
                   page_groups :=
                     [{| group_title := SampleBoot.escape "Error";
                         group_rows := [row] |}] |}];
             win_presented := true |} /\
    row_title row = SampleBoot.escape "Config Error" /\
    row_subtitle row
      = SampleBoot.escape "Config file missing: dusky_config.yaml" /\
    run (clicked Sample.os_foot self (row_suffix row)) = (Ret tt, []).
Proof.
  apply (error_page_is_inert Sample.os_foot SampleBoot.toolkit'
           SampleBoot.escape App_init
           "Config file missing: dusky_config.yaml").
  - split; reflexivity.
  - reflexivity.
Defined.

(** A blank string does not contain the launcher's name. *)
Lemma all_space_no_token (s : string) :
  all_space s = true -> str_in "uwsm-app" s = false.
Proof.
  induction s as [|c s IH]; [reflexivity|].
  cbn [all_space]. intros H. apply andb_prop in H as [Hc Hs].
  cbn [str_in prefix].
  destruct (Ascii.ascii_dec "u" c) as [<-|_]; [discriminate Hc|].
  now apply IH.
Qed.

(** X21. The blank test is made on the command as configured, before the
    expansion. An item whose command is not blank but expands to a blank
    string (a variable set to the empty string) is still dispatched: the
    handler expands it, and makes one spawn. When the item asks for no
    terminal and does not switch [use_uwsm] off, that spawn is
    [uwsm-app -- sh -c] with the blank command. *)
Theorem blank_after_expansion_spawns (os : OS) (self : App)
    (item_data : Dict) (s : string) :
  dict_get item_data "command" (PStr "") = PStr s ->
  all_space s = false ->
  all_space (expandvars os s) = true ->
  let tr := snd (run (_on_run_clicked os self item_data)) in
  expandvars_calls tr = [s] /\
  exists c, popen_calls tr = [c] /\
            (truthy (dict_get item_data "terminal" (PBool false)) = false ->
             truthy (dict_get item_data "use_uwsm" (PBool true)) = true ->
             args c = ArgList ["uwsm-app"; "--"; "sh"; "-c";
                               expandvars os s]).
Proof.
  intros Hcmd Hblank Hexp. cbn zeta.
  apply all_space_no_token in Hexp.
  rewrite (on_run_clicked_nonblank os self item_data s Hcmd Hblank).
  cbn [snd expandvars_calls popen_calls].
  rewrite popen_calls_app, expandvars_calls_app.
  set (d := dispatched _ _ _ _).
  assert (Hpre : fst d = [] \/ fst d = [EvPrint LogNoTerminal]).
  { unfold d, dispatched.
    destruct (truthy _); [|now left].
    destruct (_terminal self) as [t|]; [destruct (is_empty t)|]; auto. }
  assert (Hout : expandvars_calls (spawn_outcome os (snd d)) = [])
    by (unfold spawn_outcome; now destruct (popen os (snd d))).
  cbn [popen_calls expandvars_calls]. rewrite popen_calls_outcome, Hout.
  split; [destruct Hpre as [-> | ->]; reflexivity|].
  exists (snd d). split; [destruct Hpre as [-> | ->]; reflexivity|].
  intros Hterm Hwrap. unfold d, dispatched.
  now rewrite Hterm, Hexp, Hwrap.
Qed.

Lemma blank_after_expansion_spawns_witness :
  let tr :=
    snd (run (_on_run_clicked SampleBoot.os_empty_var
                (Sample.app_of SampleBoot.os_empty_var)
                [("command", PStr "$DUSKY_EDITOR")])) in
  expandvars_calls tr = ["$DUSKY_EDITOR"] /\
  exists c, popen_calls tr = [c] /\
            (truthy (PBool false) = false ->
             truthy (PBool true) = true ->
             args c = ArgList ["uwsm-app"; "--"; "sh"; "-c"; ""]).
Proof.
  apply (blank_after_expansion_spawns SampleBoot.os_empty_var
           (Sample.app_of SampleBoot.os_empty_var)
           [("command", PStr "$DUSKY_EDITOR")] "$DUSKY_EDITOR");
    reflexivity.
Defined.

(** X22. Take a configuration that is a mapping with a mapping (or no
    entry) for [window], and a toolkit that takes every call. If [pages] is
    null, a boolean or a number, [do_activate] raises TypeError: the value
    is not iterable. If [pages] is a non-empty string or a non-empty
    mapping, the loop runs over its characters or keys and [do_activate]
    raises AttributeError at the first of them. If [pages] is an empty
    string, mapping or list, the window is built with no page. *)
Theorem pages_not_a_list (tk : Toolkit) (esc : string -> string)
    (self : App) (d w : Dict) (v : PyVal) :
  obliging tk esc ->
  config self = PDict d ->
  dict_get d "window" (PDict []) = PDict w ->
  dict_get d "pages" (PList []) = v ->
  (v = PNone \/ (exists b, v = PBool b) \/ (exists z, v = PInt z) ->
   exists e, do_activate tk self = Raise e /\ exn_class e = "TypeError") /\
  ((exists c s, v = PStr (String c s)) \/ (exists kv m, v = PDict (kv :: m)) ->
   exists e, do_activate tk self = Raise e /\
             exn_class e = "AttributeError") /\
  (v = PStr "" \/ v = PDict [] \/ v = PList [] ->
   exists win, do_activate tk self = Ret win /\ win_pages win = []).
Proof.
  intros Hob Hcfg Hw Hv.
  assert (Hact : do_activate tk self =
                 (pages <- py_iter v ;;
                  pages <- add_each (_build_page tk) pages ;;
                  Ret {| win_title := dict_get w "title" (PStr APP_TITLE);
                         win_default_size :=
                           (dict_get w "width" (PInt 950),
                            dict_get w "height" (PInt 650));
                         win_pages := pages;
                         win_presented := true |})).
  { unfold do_activate. rewrite Hcfg. cbn [py_get mbind Res_Monad].
    rewrite Hw. cbn [py_get mbind Res_Monad].
    now rewrite !(gtk_call_obliging tk esc Hob), Hv. }
  rewrite Hact. split; [|split].
  - intros [->|[[b ->]|[z ->]]]; eexists; split; reflexivity.
  - intros [(c & s & ->)|([k x] & m & ->)]; eexists; split; reflexivity.
  - intros [-> | [-> | ->]]; eexists; split; reflexivity.
Qed.

(** A configuration file in which [pages:] was left empty. *)
Lemma pages_not_a_list_witness :
  exists e,
    do_activate SampleBoot.toolkit'
      {| config := PDict [("pages", PNone)]; _terminal := None |} = Raise e /\
    exn_class e = "TypeError".
Proof.
  apply (proj1 (pages_not_a_list SampleBoot.toolkit' SampleBoot.escape
                  {| config := PDict [("pages", PNone)]; _terminal := None |}
                  [("pages", PNone)] [] PNone
                  (conj (fun _ => eq_refl) (fun _ => eq_refl))
                  eq_refl eq_refl eq_refl)).
  left. reflexivity.
Defined.
